(** * tonsuu-checker: the plate scripts

    A shallow embedding of [scripts/plate_detect.py] (detector only) and
    [scripts/plate_local.py] (detector and reader), and the properties of
    their command-line contract.

    Both scripts are straight-line glue around external libraries
    (ultralytics, PaddleOCR, torch, PIL, the file system, the clock).  Every
    external call is an oracle of a [World]; a run is a value of the monad
    [M]: the trace of external calls and printed lines, and how the run ended
    (a returned value, [sys.exit], or an exception nobody caught). *)

From Stdlib Require Import ZArith QArith Qround List String Bool Lia.
Import ListNotations.

Local Open Scope Z_scope.

(** ** Python values *)

Module Py.

(** A Python [float].  Every finite double is a rational number; the scripts
    only compare floats, truncate them and subtract two clock readings, so the
    finite ones are kept as rationals, next to the three values that are not
    finite.  (The sign of a zero is not kept.) *)
Inductive pyfloat : Type :=
| FFin (q : Q)
| FPosInf
| FNegInf
| FNaN.

Definition fzero : pyfloat := FFin 0.

Definition is_nan (a : pyfloat) : bool :=
  match a with FNaN => true | _ => false end.

(** [a > b]; any comparison with NaN is false. *)
Definition fgt (a b : pyfloat) : bool :=
  match a, b with
  | FNaN, _ | _, FNaN => false
  | FPosInf, FPosInf => false
  | FPosInf, _ => true
  | _, FPosInf => false
  | FNegInf, _ => false
  | FFin _, FNegInf => true
  | FFin x, FFin y => negb (Qle_bool x y)
  end.

(** [a <= b]; any comparison with NaN is false. *)
Definition fle (a b : pyfloat) : bool :=
  match a, b with
  | FNaN, _ | _, FNaN => false
  | _, FPosInf => true
  | FPosInf, _ => false
  | FNegInf, _ => true
  | FFin _, FNegInf => false
  | FFin x, FFin y => Qle_bool x y
  end.

(** Exceptions: what [str(exc)] gives, and whether the class derives from
    [Exception] (an [except Exception] clause lets the others through: a
    [KeyboardInterrupt], a [SystemExit] raised inside a library). *)
Record PyExn : Type := mkExn {
  exn_is_Exception : bool;
  exn_str : string
}.

Inductive res (A : Type) : Type :=
| Ok (a : A)
| Raise (e : PyExn).
Arguments Ok {A} a.
Arguments Raise {A} e.

Definition OverflowError : PyExn :=
  mkExn true "cannot convert float infinity to integer".
Definition ValueError_nan : PyExn :=
  mkExn true "cannot convert float NaN to integer".
Definition ValueError_argmax : PyExn :=
  mkExn true "attempt to get argmax of an empty sequence".
Definition IndexError : PyExn :=
  mkExn true "index out of range".

(** A number as [max(0, v)] returns it: the int [0] or the float [v]. *)
Inductive pynum : Type :=
| PInt (z : Z)
| PFloat (f : pyfloat).

(** [max(0, v)]: the builtin keeps its first argument unless a later one is
    greater, so it gives the int [0] for a [v] that is negative, zero or NaN. *)
Definition max0 (v : pyfloat) : pynum :=
  if fgt v fzero then PFloat v else PInt 0.

(** Truncation towards zero of a rational. *)
Definition Qtrunc (q : Q) : Z := Z.quot (Qnum q) (Zpos (Qden q)).

(** [int(x)]. *)
Definition int (x : pynum) : res Z :=
  match x with
  | PInt z => Ok z
  | PFloat (FFin q) => Ok (Qtrunc q)
  | PFloat FNaN => Raise ValueError_nan
  | PFloat _ => Raise OverflowError
  end.

(** [np.argmax] over a float array: the first index of the greatest value,
    and the first NaN if there is one (the scan replaces the running maximum
    [mp] by an element [x] when [x <= mp] fails, and stops at a NaN). *)
Fixpoint argmax_scan (mp : pyfloat) (best i : nat) (l : list pyfloat) : nat :=
  match l with
  | [] => best
  | x :: t =>
      if is_nan mp then best
      else if fle x mp then argmax_scan mp best (S i) t
      else argmax_scan x i (S i) t
  end.

Definition argmax (l : list pyfloat) : res nat :=
  match l with
  | [] => Raise ValueError_argmax
  | x :: t => Ok (argmax_scan x 0%nat 1%nat t)
  end.

(** Truthiness of an optional string ([None] and [""] are false). *)
Definition truthy (s : option string) : bool :=
  match s with
  | None => false
  | Some s => negb (String.eqb s "")
  end.

End Py.
Export Py.

(** ** JSON values *)

Module Json.

#[local] Set Warnings "-register-all".

(** What [json.dumps] is given.  A dict keeps its keys in insertion order,
    which is the order they are printed in. *)
Inductive json : Type :=
| JNull
| JBool (b : bool)
| JInt (z : Z)
| JFloat (f : pyfloat)
| JStr (s : string)
| JList (l : list json)
| JObj (fields : list (string * json)).

Fixpoint assoc (k : string) (fields : list (string * json)) : option json :=
  match fields with
  | [] => None
  | (k', v) :: t => if String.eqb k k' then Some v else assoc k t
  end.

(** [d[k]], if the value is a dict with that key. *)
Definition get (k : string) (j : json) : option json :=
  match j with
  | JObj fields => assoc k fields
  | _ => None
  end.

Definition has_key (k : string) (j : json) : bool :=
  match get k j with Some _ => true | None => false end.

(** [d[k] = v]: the value of an existing key is replaced in place, a new key
    goes last. *)
Fixpoint set_field (k : string) (v : json) (fields : list (string * json))
  : list (string * json) :=
  match fields with
  | [] => [(k, v)]
  | (k', v') :: t =>
      if String.eqb k k' then (k, v) :: t else (k', v') :: set_field k v t
  end.

Definition of_option_string (s : option string) : json :=
  match s with
  | None => JNull
  | Some s => JStr s
  end.

End Json.
Export Json.

(** ** The outside world and the run monad *)

Module Run.

(** An RGB raster as PIL decodes it. *)
Record Image : Type := mkImage {
  width : Z;
  height : Z;
  raster : list (list (Z * Z * Z))
}.

(** One entry of [results[0].boxes]: the row [box.xyxy[0]] and [box.conf[0]]. *)
Record Box : Type := mkBox {
  xyxy : pyfloat * pyfloat * pyfloat * pyfloat;
  conf : pyfloat
}.

(** One element of what [model.predict] returns; [boxes] may be [None]. *)
Record Results : Type := mkResults {
  boxes : option (list Box)
}.

(** What [ocr.ocr] returns: [None], or a list of lines, a line being a list of
    [(region, (text, confidence))] entries. *)
Definition region : Type := list (pyfloat * pyfloat).
Definition ocr_entry : Type := region * (string * pyfloat).
Definition ocr_result : Type := option (list (list ocr_entry)).

(** Handles of the two loaded models. *)
Record YoloModel : Type := mkYolo { weights : string }.
Record OcrEngine : Type := mkOcr { lang : string; use_gpu : bool }.

Definition bbox : Type := Z * Z * Z * Z.

(** Everything a run asks of its environment.  The two clock readings of a
    run are [clock 0] and [clock 1]. *)
Record World : Type := mkWorld {
  import_ultralytics : res unit;
  import_paddleocr : res unit;
  import_torch : res unit;
  path_exists : string -> bool;
  image_open : string -> res Image;
  cuda_is_available : res bool;
  yolo_new : string -> res YoloModel;
  predict : YoloModel -> Image -> pyfloat -> string -> res (list Results);
  crop : Image -> bbox -> res Image;
  save : Image -> string -> res unit;
  paddleocr_new : string -> bool -> res OcrEngine;
  ocr_call : OcrEngine -> Image -> res ocr_result;
  clock : nat -> Q
}.

(** What a run does that can be seen from outside: the lines it prints and
    the external calls it makes, each with what the call returned.  [Print] is
    a JSON object on standard output; [HelpText] and [Usage] are what argparse
    writes, on standard output and on standard error. *)
Inductive event : Type :=
| Print (j : json)
| HelpText (text : string)
| Usage (text : string)
| Import (module : string) (r : res unit)
| Time (t : Q)
| Exists (path : string) (r : bool)
| ImageOpen (path : string) (r : res Image)
| CudaIsAvailable (r : res bool)
| YoloNew (path : string) (r : res YoloModel)
| Predict (m : YoloModel) (source : Image) (min_conf : pyfloat)
          (device : string) (r : res (list Results))
| Crop (im : Image) (b : bbox) (r : res Image)
| Save (im : Image) (path : string) (r : res unit)
| PaddleOcrNew (lang : string) (use_gpu : bool) (r : res OcrEngine)
| OcrCall (o : OcrEngine) (im : Image) (r : res ocr_result).

(** How a computation stops early: [sys.exit(code)], or an exception on its
    way up. *)
Inductive stop : Type :=
| SysExit (code : Z)
| Uncaught (e : PyExn).

Definition M (A : Type) : Type := list event * (A + stop).

Definition ret {A} (a : A) : M A := ([], inl a).

Definition bind {A B} (m : M A) (k : A -> M B) : M B :=
  match m with
  | (t, inl a) => let (t', r) := k a in (t ++ t', r)
  | (t, inr s) => (t, inr s)
  end.

Definition raise {A} (e : PyExn) : M A := ([], inr (Uncaught e)).
Definition sys_exit {A} (code : Z) : M A := ([], inr (SysExit code)).
Definition print (j : json) : M unit := ([Print j], inl tt).

(** What [parser.parse_args()] makes of the words of the command line: the
    parsed arguments, or one of the two ways argparse ends the process by
    itself, a help text on standard output and the status 0 for [--help], a
    usage message on standard error and the status 2 for words it rejects (a
    missing [--image], an unknown flag, a [--min-conf] that is no float). *)
Inductive CommandLine (A : Type) : Type :=
| Parsed (args : A)
| Help (text : string)
| Rejected (usage : string).
Arguments Parsed {A} args.
Arguments Help {A} text.
Arguments Rejected {A} usage.

Definition parse_args {A} (c : CommandLine A) : M A :=
  match c with
  | Parsed args => ret args
  | Help text => ([HelpText text], inr (SysExit 0))
  | Rejected usage => ([Usage usage], inr (SysExit 2))
  end.

(** An external call that may raise, logged with its result. *)
Definition call {A} (ev : res A -> event) (r : res A) : M A :=
  ([ev r], match r with Ok a => inl a | Raise e => inr (Uncaught e) end).

Definition lift {A} (r : res A) : M A :=
  match r with Ok a => ret a | Raise e => raise e end.

(** [try: m  except Exception as exc: h exc]. *)
Definition try_except_Exception {A} (m : M A) (h : PyExn -> M A) : M A :=
  match m with
  | (t, inr (Uncaught e)) =>
      if exn_is_Exception e then let (t', r) := h e in (t ++ t', r) else m
  | _ => m
  end.

(** [try: m  except: h] (a bare clause: it catches everything, [SystemExit]
    too). *)
Definition try_except {A} (m : M A) (h : M A) : M A :=
  match m with
  | (t, inr _) => let (t', r) := h in (t ++ t', r)
  | _ => m
  end.

Definition trace {A} (m : M A) : list event := fst m.
Definition outcome {A} (m : M A) : A + stop := snd m.

(** The lines on standard output, in order. *)
Fixpoint printed (t : list event) : list json :=
  match t with
  | [] => []
  | Print j :: t' => j :: printed t'
  | _ :: t' => printed t'
  end.

Definition stdout {A} (m : M A) : list json := printed (trace m).

(** The exit status of the process: 0 when the script runs to its end, the
    argument of [sys.exit], 1 after a traceback. *)
Definition exit_code {A} (m : M A) : Z :=
  match outcome m with
  | inl _ => 0
  | inr (SysExit c) => c
  | inr (Uncaught _) => 1
  end.

(** The exception that ended the run, if one did. *)
Definition traceback {A} (m : M A) : option PyExn :=
  match outcome m with
  | inr (Uncaught e) => Some e
  | _ => None
  end.

(** The calls that build or run one of the two models. *)
Definition model_event (ev : event) : bool :=
  match ev with
  | YoloNew _ _ | Predict _ _ _ _ _ | PaddleOcrNew _ _ _ | OcrCall _ _ _ => true
  | _ => false
  end.

(** The calls of the text-recognition stage. *)
Definition ocr_event (ev : event) : bool :=
  match ev with
  | PaddleOcrNew _ _ _ | OcrCall _ _ _ => true
  | _ => false
  end.

Definition cuda_event (ev : event) : bool :=
  match ev with
  | CudaIsAvailable _ => true
  | _ => false
  end.

(** What a run does after its first call that builds or runs a model. *)
Fixpoint after_first_model (t : list event) : list event :=
  match t with
  | [] => []
  | ev :: t' => if model_event ev then t' else after_first_model t'
  end.

Definition crop_event (ev : event) : bool :=
  match ev with
  | Crop _ _ _ => true
  | _ => false
  end.

Declare Scope run_scope.
Delimit Scope run_scope with run.
Notation "x <- c ;; k" := (bind c (fun x => k))
  (at level 100, c at next level, right associativity) : run_scope.
Notation "' p <- c ;; k" := (bind c (fun x => let p := x in k))
  (at level 100, p pattern, c at next level, right associativity) : run_scope.
Notation "c ;; k" := (bind c (fun _ => k))
  (at level 100, right associativity) : run_scope.

Section Calls.
Variable w : World.

Definition time_time (n : nat) : M Q := ([Time (clock w n)], inl (clock w n)).
Definition os_path_exists (p : string) : M bool :=
  ([Exists p (path_exists w p)], inl (path_exists w p)).
Definition Image_open (p : string) : M Image :=
  call (ImageOpen p) (image_open w p).
Definition torch_cuda_is_available : M bool :=
  call CudaIsAvailable (cuda_is_available w).
Definition YOLO (p : string) : M YoloModel := call (YoloNew p) (yolo_new w p).
Definition model_predict (m : YoloModel) (source : Image) (min_conf : pyfloat)
           (device : string) : M (list Results) :=
  call (Predict m source min_conf device) (predict w m source min_conf device).
Definition image_crop (im : Image) (b : bbox) : M Image :=
  call (Crop im b) (crop w im b).
Definition image_save (im : Image) (p : string) : M unit :=
  call (Save im p) (save w im p).
Definition PaddleOCR (l : string) (gpu : bool) : M OcrEngine :=
  call (PaddleOcrNew l gpu) (paddleocr_new w l gpu).
Definition ocr_ocr (o : OcrEngine) (im : Image) : M ocr_result :=
  call (OcrCall o im) (ocr_call w o im).
End Calls.

(** [int((now - started) * 1000)].  The difference and the product are taken
    exactly: rounding to the nearest double keeps the sign of both. *)
Definition elapsed (started now : Q) : Z := Qtrunc ((now - started) * 1000).

(** [not results or results[0].boxes is None or len(results[0].boxes) == 0]. *)
Definition no_boxes (results : list Results) : bool :=
  match results with
  | [] => true
  | r0 :: _ =>
      match boxes r0 with
      | None => true
      | Some bs => Nat.eqb (List.length bs) 0
      end
  end.

(** [results[0].boxes], read after [no_boxes] said there are some. *)
Definition first_boxes (results : list Results) : list Box :=
  match results with
  | r0 :: _ => match boxes r0 with Some bs => bs | None => [] end
  | [] => []
  end.

(** [boxes[best_idx]]. *)
Definition box_at (bs : list Box) (i : nat) : res Box :=
  match nth_error bs i with
  | Some b => Ok b
  | None => Raise IndexError
  end.

(** [[int(max(0, v)) for v in (a, b, c, d)]], unpacked into four names. *)
Definition clamp (v4 : pyfloat * pyfloat * pyfloat * pyfloat) : res bbox :=
  let '(a, b, c, d) := v4 in
  match int (max0 a) with
  | Raise e => Raise e
  | Ok x1 =>
      match int (max0 b) with
      | Raise e => Raise e
      | Ok y1 =>
          match int (max0 c) with
          | Raise e => Raise e
          | Ok x2 =>
              match int (max0 d) with
              | Raise e => Raise e
              | Ok y2 => Ok (x1, y1, x2, y2)
              end
          end
      end
  end.

Definition json_bbox (b : bbox) : json :=
  let '(x1, y1, x2, y2) := b in JList [JInt x1; JInt y1; JInt x2; JInt y2].

End Run.
Export Run.

(** ** scripts/plate_detect.py *)

Module PlateDetect.

Local Open Scope string_scope.
Local Open Scope run_scope.

(** The parsed command line. *)
Record Args : Type := mkArgs {
  image : string;
  yolo_model : string;
  min_conf : pyfloat;
  device : string;
  output_crop : option string
}.

Definition main (w : World) (args : Args) : M unit :=
  started <- time_time w 0 ;;
  found <- os_path_exists w (image args) ;;
  (if negb found then
     (print (JObj [("detected", JBool false); ("error", JStr "image_not_found")]) ;;
      sys_exit 2)
   else ret tt) ;;
  im <- Image_open w (image args) ;;
  let image_np := im in
  dev <- (if String.eqb (device args) "auto" then
            try_except
              (call (Import "torch") (import_torch w) ;;
               avail <- torch_cuda_is_available w ;;
               ret (if avail : bool then "0" else "cpu"))
              (ret "cpu")
          else ret (device args)) ;;
  model <- try_except_Exception (YOLO w (yolo_model args))
             (fun exc =>
                print (JObj [("detected", JBool false);
                             ("error", JStr ("yolo_load_error: " ++ exn_str exc))]) ;;
                sys_exit 3) ;;
  results <- model_predict w model image_np (min_conf args) dev ;;
  if no_boxes results then
    (now <- time_time w 1 ;;
     print (JObj [("detected", JBool false);
                  ("confidence", JFloat fzero);
                  ("elapsed_ms", JInt (elapsed started now))]))
  else
    (let bs := first_boxes results in
     best_idx <- lift (argmax (map conf bs)) ;;
     box <- lift (box_at bs best_idx) ;;
     b <- lift (clamp (xyxy box)) ;;
     let c := conf box in
     crop_path <- (match output_crop args with
                   | Some p =>
                       if negb (String.eqb p "") then
                         (plate_img <- image_crop w im b ;;
                          image_save w plate_img p ;;
                          ret (Some p))
                       else ret None
                   | None => ret None
                   end) ;;
     now <- time_time w 1 ;;
     let result := [("detected", JBool true);
                    ("confidence", JFloat c);
                    ("bbox", json_bbox b);
                    ("elapsed_ms", JInt (elapsed started now))] in
     let result := if truthy crop_path
                   then set_field "crop_path" (of_option_string crop_path) result
                   else result in
     print (JObj result)).

(** The module from its first line: the guarded import, then [main()]. *)
Definition script (w : World) (args : Args) : M unit :=
  try_except_Exception (call (Import "ultralytics") (import_ultralytics w))
    (fun exc =>
       print (JObj [("detected", JBool false);
                    ("error", JStr ("import_error: " ++ exn_str exc))]) ;;
       sys_exit 1) ;;
  main w args.

(** The same from the words of the command line: [main()] starts with
    [parser.parse_args()]. *)
Definition invoke (w : World) (c : CommandLine Args) : M unit :=
  try_except_Exception (call (Import "ultralytics") (import_ultralytics w))
    (fun exc =>
       print (JObj [("detected", JBool false);
                    ("error", JStr ("import_error: " ++ exn_str exc))]) ;;
       sys_exit 1) ;;
  args <- parse_args c ;;
  main w args.

End PlateDetect.

(** ** scripts/plate_local.py *)

Module PlateLocal.

Local Open Scope string_scope.
Local Open Scope run_scope.

Record Args : Type := mkArgs {
  image : string;
  yolo_model : string;
  min_conf : pyfloat;
  device : string;
  ocr_lang : string
}.

Definition detect_plate (w : World) (model : YoloModel) (image_np : Image)
           (min_conf : pyfloat) (device : string)
  : M (option (pyfloat * pyfloat * pyfloat * pyfloat * pyfloat)) :=
  results <- model_predict w model image_np min_conf device ;;
  if no_boxes results then ret None
  else
    (let bs := first_boxes results in
     best_idx <- lift (argmax (map conf bs)) ;;
     box <- lift (box_at bs best_idx) ;;
     ret (Some (xyxy box, conf box))).

(** The body of the inner loop: an entry replaces the running best when its
    confidence is strictly greater. *)
Definition keep_better (best : option string * pyfloat) (e : ocr_entry)
  : option string * pyfloat :=
  let '(best_text, best_conf) := best in
  let '(_, (text, c)) := e in
  if fgt c best_conf then (Some text, c) else (best_text, best_conf).

Definition scan (lines : list (list ocr_entry)) (best : option string * pyfloat)
  : option string * pyfloat :=
  fold_left (fun best line => fold_left keep_better line best) lines best.

(** [not result]: [None] and the empty list. *)
Definition falsy (result : ocr_result) : bool :=
  match result with
  | None | Some [] => true
  | Some (_ :: _) => false
  end.

Definition lines_of (result : ocr_result) : list (list ocr_entry) :=
  match result with
  | Some lines => lines
  | None => []
  end.

Definition ocr_plate (w : World) (ocr : OcrEngine) (plate_img : Image)
  : M (option string * pyfloat) :=
  result <- ocr_ocr w ocr plate_img ;;
  if falsy result then ret (None, fzero)
  else ret (scan (lines_of result) (None, fzero)).

Definition main (w : World) (args : Args) : M unit :=
  started <- time_time w 0 ;;
  found <- os_path_exists w (image args) ;;
  (if negb found then
     (print (JObj [("plate", JNull); ("error", JStr "image_not_found")]) ;;
      sys_exit 2)
   else ret tt) ;;
  im <- Image_open w (image args) ;;
  let image_np := im in
  dev <- (if String.eqb (device args) "auto" then
            (avail <- torch_cuda_is_available w ;;
             ret (if avail : bool then "0" else "cpu"))
          else ret (device args)) ;;
  model <- try_except_Exception (YOLO w (yolo_model args))
             (fun exc =>
                print (JObj [("plate", JNull);
                             ("error", JStr ("yolo_load_error: " ++ exn_str exc))]) ;;
                sys_exit 3) ;;
  det <- detect_plate w model image_np (min_conf args) dev ;;
  match det with
  | None => print (JObj [("plate", JNull); ("confidence", JFloat fzero)])
  | Some (box, det_conf) =>
      b <- lift (clamp box) ;;
      plate_img <- image_crop w im b ;;
      let use_gpu := negb (String.eqb dev "cpu" || String.eqb dev "-1") in
      ocr <- PaddleOCR w (ocr_lang args) use_gpu ;;
      r <- ocr_plate w ocr plate_img ;;
      let '(text, ocr_conf) := r in
      now <- time_time w 1 ;;
      print (JObj [("plate", of_option_string text);
                   ("confidence", JFloat det_conf);
                   ("ocr_confidence", JFloat ocr_conf);
                   ("bbox", json_bbox b);
                   ("elapsed_ms", JInt (elapsed started now))])
  end.

Definition script (w : World) (args : Args) : M unit :=
  try_except_Exception
    (call (Import "ultralytics") (import_ultralytics w) ;;
     call (Import "paddleocr") (import_paddleocr w) ;;
     call (Import "torch") (import_torch w))
    (fun exc =>
       print (JObj [("plate", JNull);
                    ("error", JStr ("import_error: " ++ exn_str exc))]) ;;
       sys_exit 1) ;;
  main w args.

(** The same from the words of the command line. *)
Definition invoke (w : World) (c : CommandLine Args) : M unit :=
  try_except_Exception
    (call (Import "ultralytics") (import_ultralytics w) ;;
     call (Import "paddleocr") (import_paddleocr w) ;;
     call (Import "torch") (import_torch w))
    (fun exc =>
       print (JObj [("plate", JNull);
                    ("error", JStr ("import_error: " ++ exn_str exc))]) ;;
       sys_exit 1) ;;
  args <- parse_args c ;;
  main w args.

End PlateLocal.

(** ** Predicates of the statements *)

Module Contract.

Local Open Scope string_scope.

(** The four coordinates of a box lie within the raster: none exceeds the
    width, for the horizontal ones, or the height. *)
Definition within (v : pyfloat * pyfloat * pyfloat * pyfloat) (im : Image) : Prop :=
  let '(a, b, c, d) := v in
  fle a (FFin (inject_Z (width im))) = true /\
  fle b (FFin (inject_Z (height im))) = true /\
  fle c (FFin (inject_Z (width im))) = true /\
  fle d (FFin (inject_Z (height im))) = true.

(** How [int(max(0, v))] relates a float to the integer it gives: zero for a
    float that is not greater than zero, the integer part otherwise. *)
Definition rounded (v : pyfloat) (z : Z) : Prop :=
  (fgt v fzero = false /\ z = 0) \/
  exists x : Q,
    v = FFin x /\ (0 < x)%Q /\ (inject_Z z <= x)%Q /\ (x < inject_Z (z + 1))%Q.

(** What holds of a box [b] printed in the object [j] by a run of trace [t].
    No coordinate is negative.  The run asked the detection model once with
    an answer [rs], and [b] comes from the box the script selects in [rs],
    the one at the index [argmax] gives, whose confidence is the one printed
    in [j]: each coordinate of [b] is the coordinate of that box, zero if it
    is not greater than zero and its integer part otherwise.  And [b] lies
    within the raster the model was given whenever that box does. *)
Definition reported_box (t : list event) (j : json) (b : bbox) : Prop :=
  let '(x1, y1, x2, y2) := b in
  (0 <= x1 /\ 0 <= y1 /\ 0 <= x2 /\ 0 <= y2) /\
  exists m im mc dv rs i box,
    In (Predict m im mc dv (Ok rs)) t /\
    argmax (map conf (first_boxes rs)) = Ok i /\
    box_at (first_boxes rs) i = Ok box /\
    get "confidence" j = Some (JFloat (conf box)) /\
    clamp (xyxy box) = Ok b /\
    (let '(v1, v2, v3, v4) := xyxy box in
     rounded v1 x1 /\ rounded v2 y1 /\ rounded v3 x2 /\ rounded v4 y2) /\
    (0 <= width im -> 0 <= height im -> within (xyxy box) im ->
     x1 <= width im /\ y1 <= height im /\ x2 <= width im /\ y2 <= height im).




(** The device the detector script gives to the model. *)
Definition detector_device (w : World) (device : string) : string :=
  if String.eqb device "auto" then
    match import_torch w, cuda_is_available w with
    | Ok _, Ok true => "0"
    | _, _ => "cpu"
    end
  else device.

(** The device the reader script gives to the model, when the capability
    check it may need returns. *)
Definition reader_device (w : World) (device : string) : option string :=
  if String.eqb device "auto" then
    match cuda_is_available w with
    | Ok true => Some "0"
    | Ok false => Some "cpu"
    | Raise _ => None
    end
  else Some device.

(** [device not in ("cpu", "-1")]. *)
Definition uses_gpu (dev : string) : bool :=
  negb (String.eqb dev "cpu" || String.eqb dev "-1").

End Contract.
Export Contract.

(** ** Sample worlds *)

Module Samples.

Local Open Scope string_scope.

Definition black : Z * Z * Z := (0, 0, 0).

(** A 4 x 3 raster. *)
Definition car : Image :=
  mkImage 4 3 [[black; black; black; black];
               [black; black; black; black];
               [black; black; black; black]].

Definition q (n : Z) (d : positive) : pyfloat := FFin (Qmake n d).

Definition boom : PyExn := mkExn true "boom".

(** A world where every library is installed and works, ["car.jpg"] is the
    only file, the detector answers [pred], the capability check [cuda], the
    reader [text], and a run takes a quarter of a second. *)
Definition world (opened : res Image) (cuda : res bool)
           (pred : res (list Results)) (text : res ocr_result) : World :=
  {| import_ultralytics := Ok tt;
     import_paddleocr := Ok tt;
     import_torch := Ok tt;
     path_exists := fun p => String.eqb p "car.jpg";
     image_open := fun _ => opened;
     cuda_is_available := cuda;
     yolo_new := fun p => Ok (mkYolo p);
     predict := fun _ _ _ _ => pred;
     crop := fun im b =>
               let '(x1, y1, x2, y2) := b in Ok (mkImage (x2 - x1) (y2 - y1) []);
     save := fun _ _ => Ok tt;
     paddleocr_new := fun l g => Ok (mkOcr l g);
     ocr_call := fun _ _ => text;
     clock := fun n => match n with O => 100%Q | _ => Qmake 401 4 end |}.

(** Two candidates, the second the more confident; the first starts above
    the raster. *)
Definition two_boxes : list Results :=
  [mkResults (Some [mkBox (q 1 2, q (-3) 2, q 5 2, q 2 1) (q 1 2);
                    mkBox (q 3 2, q 1 1, q 7 2, q 5 2) (q 9 10)])].

(** One candidate that reaches beyond the raster. *)
Definition wide_box : list Results :=
  [mkResults (Some [mkBox (q 0 1, q 0 1, q 50 1, q 60 1) (q 9 10)])].

Definition two_texts : ocr_result :=
  Some [[([], ("12-34", q 4 5))]; [([], ("shinagawa", q 19 20)); ([], ("500", q 19 20))]].

Definition zero_text : ocr_result := Some [[([], ("A", q 0 1))]].

Definition detect_args (dev : string) (out : option string) : PlateDetect.Args :=
  PlateDetect.mkArgs "car.jpg" "models/plate_yolo.pt" (q 35 100) dev out.
Definition local_args (dev : string) : PlateLocal.Args :=
  PlateLocal.mkArgs "car.jpg" "models/plate_yolo.pt" (q 35 100) dev "japan".

Definition w_two : World := world (Ok car) (Ok true) (Ok two_boxes) (Ok two_texts).
Definition w_wide : World := world (Ok car) (Ok true) (Ok wide_box) (Ok two_texts).
Definition w_none : World := world (Ok car) (Ok false) (Ok []) (Ok two_texts).
Definition w_no_cuda_check : World :=
  world (Ok car) (Raise boom) (Ok two_boxes) (Ok two_texts).

Definition w_zero : World := world (Ok car) (Ok true) (Ok two_boxes) (Ok zero_text).

(** What the detector prints in [w_two], and the reader. *)
Definition detected_two : json :=
  JObj [("detected", JBool true); ("confidence", JFloat (q 9 10));
        ("bbox", JList [JInt 1; JInt 1; JInt 3; JInt 2]);
        ("elapsed_ms", JInt 250)].
Definition read_two : json :=
  JObj [("plate", JStr "shinagawa"); ("confidence", JFloat (q 9 10));
        ("ocr_confidence", JFloat (q 19 20));
        ("bbox", JList [JInt 1; JInt 1; JInt 3; JInt 2]);
        ("elapsed_ms", JInt 250)].

End Samples.
Export Samples.

(** ** Observations on a trace and on a printed object *)

Module Observe.

Local Open Scope string_scope.

(** The keys of a printed object, in the order they are printed. *)
Definition keys (j : json) : list string :=
  match j with
  | JObj fields => map fst fields
  | _ => []
  end.

(** The inference calls of the detection model. *)
Definition predict_event (ev : event) : bool :=
  match ev with
  | Predict _ _ _ _ _ => true
  | _ => false
  end.

(** The calls that cut a region out of the image or write a file. *)
Definition file_event (ev : event) : bool :=
  match ev with
  | Crop _ _ _ | Save _ _ _ => true
  | _ => false
  end.

(** The imports and the capability check of torch. *)
Definition torch_event (ev : event) : bool :=
  match ev with
  | Import "torch" _ | CudaIsAvailable _ => true
  | _ => false
  end.

(** The confidence of an entry of the recognition. *)
Definition entry_conf (e : ocr_entry) : pyfloat := snd (snd e).

(** [device not in ("cpu", "-1")]. *)
Definition gpu_device (dev : string) : bool :=
  negb (String.eqb dev "cpu" || String.eqb dev "-1").

(** A float among the four coordinates of a box. *)
Definition coords (v : pyfloat * pyfloat * pyfloat * pyfloat) : list pyfloat :=
  let '(a, b, c, d) := v in [a; b; c; d].

Definition is_pos_inf (a : pyfloat) : bool :=
  match a with FPosInf => true | _ => false end.

(** More sample worlds: a model file that does not load, and a detector that
    answers with a tie. *)
Definition w_no_model : World :=
  {| import_ultralytics := Ok tt;
     import_paddleocr := Ok tt;
     import_torch := Ok tt;
     path_exists := fun p => String.eqb p "car.jpg";
     image_open := fun _ => Ok car;
     cuda_is_available := Ok true;
     yolo_new := fun _ => Raise (mkExn true "no such file");
     predict := fun _ _ _ _ => Ok two_boxes;
     crop := fun im b =>
               let '(x1, y1, x2, y2) := b in Ok (mkImage (x2 - x1) (y2 - y1) []);
     save := fun _ _ => Ok tt;
     paddleocr_new := fun l g => Ok (mkOcr l g);
     ocr_call := fun _ _ => Ok two_texts;
     clock := fun n => match n with O => 100%Q | _ => Qmake 401 4 end |}.

Definition w_no_paddle : World :=
  {| import_ultralytics := Ok tt;
     import_paddleocr := Raise (mkExn true "No module named paddleocr");
     import_torch := Ok tt;
     path_exists := fun p => String.eqb p "car.jpg";
     image_open := fun _ => Ok car;
     cuda_is_available := Ok true;
     yolo_new := fun p => Ok (mkYolo p);
     predict := fun _ _ _ _ => Ok two_boxes;
     crop := fun im b =>
               let '(x1, y1, x2, y2) := b in Ok (mkImage (x2 - x1) (y2 - y1) []);
     save := fun _ _ => Ok tt;
     paddleocr_new := fun l g => Ok (mkOcr l g);
     ocr_call := fun _ _ => Ok two_texts;
     clock := fun n => match n with O => 100%Q | _ => Qmake 401 4 end |}.

(** The world of [w_two] on a machine without an accelerator. *)
Definition w_none_free : World := world (Ok car) (Ok false) (Ok two_boxes) (Ok two_texts).

(** Three candidates, the last two of the same, greatest, confidence. *)
Definition tied_boxes : list Box :=
  [mkBox (q 0 1, q 0 1, q 1 1, q 1 1) (q 1 2);
   mkBox (q 1 1, q 1 1, q 2 1, q 2 1) (q 9 10);
   mkBox (q 2 1, q 2 1, q 3 1, q 3 1) (q 9 10)].


(** A detector that fails during the inference. *)
Definition w_no_inference : World :=
  world (Ok car) (Ok true) (Raise (mkExn true "CUDA out of memory")) (Ok two_texts).

Definition saved_two : json :=
  JObj [("detected", JBool true); ("confidence", JFloat (q 9 10));
        ("bbox", JList [JInt 1; JInt 1; JInt 3; JInt 2]);
        ("elapsed_ms", JInt 250); ("crop_path", JStr "out.png")].

Definition not_detected : json :=
  JObj [("detected", JBool false); ("confidence", JFloat fzero);
        ("elapsed_ms", JInt 250)].

End Observe.
Export Observe.


(** * Properties *)

(** ** Floats, truncation and the clamp *)

Section FloatFacts.

Lemma fle_refl (a : pyfloat) : is_nan a = false -> fle a a = true.
Proof.
  destruct a as [x | | |]; simpl; intros H; try reflexivity; try discriminate.
  apply Qle_bool_iff, Qle_refl.
Qed.

Lemma fle_trans (a b c : pyfloat) :
  fle a b = true -> fle b c = true -> fle a c = true.
Proof.
  destruct a as [x | | |], b as [y | | |], c as [z | | |]; simpl;
    intros H1 H2; try reflexivity; try discriminate.
  apply Qle_bool_iff. apply Qle_bool_iff in H1, H2.
  eapply Qle_trans; eassumption.
Qed.

(** Without a NaN the order is total: when [x <= y] fails, [y <= x] holds. *)
Lemma fle_total (a b : pyfloat) :
  is_nan a = false -> is_nan b = false -> fle a b = false -> fle b a = true.
Proof.
  destruct a as [x | | |], b as [y | | |]; simpl;
    intros Ha Hb H; try reflexivity; try discriminate.
  apply Qle_bool_iff.
  destruct (Qlt_le_dec y x) as [Hlt | Hle].
  - apply Qlt_le_weak, Hlt.
  - apply Qle_bool_iff in Hle. congruence.
Qed.

(** [a > b] and [a <= b] exclude each other. *)
Lemma fgt_fle (a b : pyfloat) : fle a b = true -> fgt a b = false.
Proof.
  destruct a as [x | | |], b as [y | | |]; simpl;
    intros H; try reflexivity; try discriminate.
  rewrite H. reflexivity.
Qed.

Lemma fgt_trans_fle (a b c : pyfloat) :
  fgt a b = false -> fgt b c = false -> is_nan b = false -> fgt a c = false.
Proof.
  destruct a as [x | | |], b as [y | | |], c as [z | | |]; simpl;
    intros H1 H2 Hb; try reflexivity; try discriminate.
  apply negb_false_iff in H1, H2. apply negb_false_iff.
  apply Qle_bool_iff. apply Qle_bool_iff in H1, H2.
  eapply Qle_trans; eassumption.
Qed.

Lemma Qtrunc_pos (x : Q) : Qle_bool x 0 = false -> 0 <= Qtrunc x.
Proof.
  intros H. unfold Qtrunc. apply Z.quot_pos; [| lia].
  destruct x as [n d]. unfold Qle_bool in H. simpl in *.
  apply Z.leb_gt in H. lia.
Qed.

Lemma Qtrunc_le (x : Q) (b : Z) :
  Qle_bool x 0 = false -> Qle_bool x (inject_Z b) = true -> Qtrunc x <= b.
Proof.
  intros Hpos Hle. unfold Qtrunc.
  destruct x as [n d]. unfold Qle_bool in *. simpl in *.
  apply Z.leb_gt in Hpos. apply Z.leb_le in Hle.
  rewrite Z.quot_div_nonneg by lia.
  apply Z.div_le_upper_bound; lia.
Qed.

(** [int(max(0, v))], when it returns, is not negative. *)
Lemma int_max0_nonneg (v : pyfloat) (z : Z) : int (max0 v) = Ok z -> 0 <= z.
Proof.
  unfold max0. destruct (fgt v fzero) eqn:Hgt; simpl.
  - destruct v as [x | | |]; simpl in *; try discriminate.
    intros H. injection H as <-. apply Qtrunc_pos.
    now apply negb_true_iff in Hgt.
  - intros H. injection H as <-. lia.
Qed.

(** It stays under a bound that the float itself respects. *)
Lemma int_max0_le (v : pyfloat) (z b : Z) :
  int (max0 v) = Ok z -> 0 <= b -> fle v (FFin (inject_Z b)) = true -> z <= b.
Proof.
  unfold max0. destruct (fgt v fzero) eqn:Hgt; simpl.
  - destruct v as [x | | |]; simpl in *; try discriminate.
    intros H Hb Hle. injection H as <-. apply Qtrunc_le; [| exact Hle].
    now apply negb_true_iff in Hgt.
  - intros H Hb _. injection H as <-. exact Hb.
Qed.

Lemma clamp_inv (v4 : pyfloat * pyfloat * pyfloat * pyfloat) (b : bbox) :
  clamp v4 = Ok b ->
  let '(v1, v2, v3, v4) := v4 in
  let '(x1, y1, x2, y2) := b in
  int (max0 v1) = Ok x1 /\ int (max0 v2) = Ok y1 /\
  int (max0 v3) = Ok x2 /\ int (max0 v4) = Ok y2.
Proof.
  destruct v4 as [[[v1 v2] v3] v4], b as [[[x1 y1] x2] y2]. unfold clamp.
  destruct (int (max0 v1)); [| discriminate].
  destruct (int (max0 v2)); [| discriminate].
  destruct (int (max0 v3)); [| discriminate].
  destruct (int (max0 v4)); [| discriminate].
  intros H. injection H as -> -> -> ->. repeat split.
Qed.

End FloatFacts.

(** ** The argmax *)

Section Argmax.

(** The scan keeps, in [mp], a bound of everything seen so far; it ends on an
    index of the list or on the index it started with. *)
Lemma argmax_scan_spec (l : list pyfloat) :
  forall (mp : pyfloat) (best i : nat),
    is_nan mp = false ->
    Forall (fun x => is_nan x = false) l ->
    exists c,
      (argmax_scan mp best i l = best /\ c = mp \/
       exists k, argmax_scan mp best i l = (i + k)%nat /\ nth_error l k = Some c) /\
      fle mp c = true /\
      Forall (fun x => fle x c = true) l.
Proof.
  induction l as [| x t IH]; intros mp best i Hmp Hl.
  - exists mp. simpl. split; [left; split; reflexivity |].
    split; [apply fle_refl, Hmp | constructor].
  - inversion Hl as [| ? ? Hx Ht]; subst. simpl. rewrite Hmp.
    destruct (fle x mp) eqn:Hle.
    + destruct (IH mp best (S i) Hmp Ht) as (c & Hidx & Hb & Hall).
      exists c. split.
      * destruct Hidx as [[E1 E2] | (k & E1 & E2)].
        -- left. split; assumption.
        -- right. exists (S k). split; [rewrite E1; lia | exact E2].
      * split; [exact Hb |]. constructor; [| exact Hall].
        eapply fle_trans; eassumption.
    + destruct (IH x i (S i) Hx Ht) as (c & Hidx & Hb & Hall).
      exists c. split.
      * right. destruct Hidx as [[E1 E2] | (k & E1 & E2)].
        -- exists 0%nat. split; [rewrite E1; lia | simpl; congruence].
        -- exists (S k). split; [rewrite E1; lia | exact E2].
      * split.
        -- eapply fle_trans; [| exact Hb]. apply fle_total; assumption.
        -- constructor; assumption.
Qed.

(** On a non-empty list without NaN, [argmax] returns an index of the list
    whose element bounds all the others. *)
Lemma argmax_spec (l : list pyfloat) :
  l <> [] ->
  Forall (fun x => is_nan x = false) l ->
  exists i c,
    argmax l = Ok i /\ nth_error l i = Some c /\
    Forall (fun x => fle x c = true) l.
Proof.
  destruct l as [| x t]; [congruence |]. intros _ Hl.
  inversion Hl as [| ? ? Hx Ht]; subst.
  destruct (argmax_scan_spec t x 0%nat 1%nat Hx Ht) as (c & Hidx & Hb & Hall).
  exists (argmax_scan x 0%nat 1%nat t), c. split; [reflexivity |]. split.
  - destruct Hidx as [[E1 E2] | (k & E1 & E2)].
    + rewrite E1, E2. reflexivity.
    + rewrite E1. exact E2.
  - constructor; assumption.
Qed.

(** The box at the index the argmax gives, for the scripts' selection. *)
Lemma best_box_spec (bs : list Box) :
  bs <> [] ->
  Forall (fun b => is_nan (conf b) = false) bs ->
  exists i box,
    argmax (map conf bs) = Ok i /\ box_at bs i = Ok box /\ In box bs /\
    Forall (fun b => fle (conf b) (conf box) = true) bs.
Proof.
  intros Hne Hnan.
  destruct (argmax_spec (map conf bs)) as (i & c & Ha & Hn & Hall).
  - destruct bs; [congruence | discriminate].
  - apply Forall_map. exact Hnan.
  - rewrite nth_error_map in Hn.
    destruct (nth_error bs i) as [box |] eqn:E; [| discriminate].
    injection Hn as <-.
    exists i, box. split; [exact Ha |]. split.
    + unfold box_at. rewrite E. reflexivity.
    + split; [eapply nth_error_In; eassumption |].
      apply Forall_map in Hall. exact Hall.
Qed.

End Argmax.

(** ** Case analysis of a run *)

(** A run is decided by what the oracles answer.  [next_case] splits on the
    next answer the run waits for; the oracles appear in the goal in the order
    the script calls them, an argument that is still bound by an earlier
    answer keeping the later calls out of reach. *)
Ltac simpl_run :=
  cbn -[append elapsed argmax box_at clamp no_boxes first_boxes reported_box].

Ltac next_case :=
  match goal with
  | |- context [import_ultralytics ?w] =>
      destruct (import_ultralytics w) as [[] | ?] eqn:?
  | |- context [import_paddleocr ?w] =>
      destruct (import_paddleocr w) as [[] | ?] eqn:?
  | |- context [path_exists ?w ?p] => destruct (path_exists w p) eqn:?
  | |- context [image_open ?w ?p] => destruct (image_open w p) as [? | ?] eqn:?
  | |- context [String.eqb ?d "auto"] => destruct (String.eqb d "auto") eqn:?
  | |- context [import_torch ?w] =>
      destruct (import_torch w) as [[] | ?] eqn:?
  | |- context [cuda_is_available ?w] =>
      destruct (cuda_is_available w) as [[|] | ?] eqn:?
  | |- context [yolo_new ?w ?p] => destruct (yolo_new w p) as [? | ?] eqn:?
  | |- context [exn_is_Exception ?e] => destruct (exn_is_Exception e) eqn:?
  | |- context [predict ?w ?m ?i ?c ?d] =>
      destruct (predict w m i c d) as [? | ?] eqn:?
  | |- context [no_boxes ?r] => destruct (no_boxes r) eqn:?
  | |- context [argmax ?l] => destruct (argmax l) as [? | ?] eqn:?
  | |- context [box_at ?l ?i] => destruct (box_at l i) as [? | ?] eqn:?
  | |- context [clamp ?v] => destruct (clamp v) as [[[[? ?] ?] ?] | ?] eqn:?
  | |- context [PlateDetect.output_crop ?a] =>
      destruct (PlateDetect.output_crop a) as [? | ] eqn:?
  | |- context [negb (String.eqb ?p "")] => destruct (String.eqb p "") eqn:?
  | |- context [crop ?w ?i ?b] => destruct (crop w i b) as [? | ?] eqn:?
  | |- context [save ?w ?i ?p] => destruct (save w i p) as [[] | ?] eqn:?
  | |- context [paddleocr_new ?w ?l ?g] =>
      destruct (paddleocr_new w l g) as [? | ?] eqn:?
  | |- context [ocr_call ?w ?o ?i] => destruct (ocr_call w o i) as [? | ?] eqn:?
  | |- context [PlateLocal.falsy ?r] => destruct (PlateLocal.falsy r) eqn:?
  | |- context [PlateLocal.scan ?l ?b] =>
      destruct (PlateLocal.scan l b) as [? ?] eqn:?
  end; simpl_run.

Ltac unfold_run :=
  unfold PlateDetect.script, PlateDetect.main,
    PlateLocal.script, PlateLocal.main, PlateLocal.detect_plate,
    PlateLocal.ocr_plate,
    time_time, os_path_exists, Image_open, torch_cuda_is_available, YOLO,
    model_predict, image_crop, image_save, PaddleOCR, ocr_ocr.

Ltac run_cases := unfold_run; simpl_run; repeat next_case.

(** A hypothesis [In ev t] over the trace of a decided run: the events it
    cannot be are dropped. *)
Ltac in_trace H :=
  simpl in H;
  repeat (destruct H as [H | H]; [try discriminate H |]); try contradiction H.

(** Two answers of the same call are the same answer. *)
Ltac same_answer f :=
  match goal with
  | H1 : f _ = Ok _, H2 : f _ = Ok _ |- _ =>
      rewrite H1 in H2; injection H2 as ?; subst
  | H1 : f _ _ = Ok _, H2 : f _ _ = Ok _ |- _ =>
      rewrite H1 in H2; injection H2 as ?; subst
  end.

Local Open Scope string_scope.


(** ** C4: an image path that does not exist *)

(** C4.  When the image path does not exist, [main] of the detector script
    prints the object [{"detected": false, "error": "image_not_found"}] and
    exits with status 2, and [main] of the reader script prints
    [{"plate": null, "error": "image_not_found"}] and exits with status 2; in
    both the run reads the clock and tests the path, and nothing else: no
    model is built or run. *)
Theorem C4_image_not_found :
  forall (w : World) (a : PlateDetect.Args) (a' : PlateLocal.Args),
    path_exists w (PlateDetect.image a) = false ->
    path_exists w (PlateLocal.image a') = false ->
    (trace (PlateDetect.main w a)
     = [Time (clock w 0); Exists (PlateDetect.image a) false;
        Print (JObj [("detected", JBool false); ("error", JStr "image_not_found")])] /\
     stdout (PlateDetect.main w a)
     = [JObj [("detected", JBool false); ("error", JStr "image_not_found")]] /\
     exit_code (PlateDetect.main w a) = 2 /\
     existsb model_event (trace (PlateDetect.main w a)) = false) /\
    (trace (PlateLocal.main w a')
     = [Time (clock w 0); Exists (PlateLocal.image a') false;
        Print (JObj [("plate", JNull); ("error", JStr "image_not_found")])] /\
     stdout (PlateLocal.main w a')
     = [JObj [("plate", JNull); ("error", JStr "image_not_found")]] /\
     exit_code (PlateLocal.main w a') = 2 /\
     existsb model_event (trace (PlateLocal.main w a')) = false).
Proof.
  intros w a a' H H'.
  unfold stdout, exit_code, outcome, trace, PlateDetect.main, PlateLocal.main,
    os_path_exists, time_time.
  rewrite H, H'. simpl. repeat split.
Qed.

Lemma C4_image_not_found_witness :
  stdout (PlateDetect.main w_two (PlateDetect.mkArgs "nowhere.jpg" "m.pt" (q 35 100) "0" None))
  = [JObj [("detected", JBool false); ("error", JStr "image_not_found")]] /\
  stdout (PlateLocal.main w_two (PlateLocal.mkArgs "nowhere.jpg" "m.pt" (q 35 100) "0" "japan"))
  = [JObj [("plate", JNull); ("error", JStr "image_not_found")]].
Proof.
  destruct (C4_image_not_found w_two
              (PlateDetect.mkArgs "nowhere.jpg" "m.pt" (q 35 100) "0" None)
              (PlateLocal.mkArgs "nowhere.jpg" "m.pt" (q 35 100) "0" "japan")
              eq_refl eq_refl) as [(_ & Hd & _) (_ & Hl & _)].
  split; [exact Hd | exact Hl].
Defined.

(** ** C5: the reader when nothing is detected *)

(** C5.  In the reader script, when the detection model returns a result
    without boxes, [main] prints the object [{"plate": null, "confidence": 0.0}]
    and nothing else, returns (status 0), and its trace has no call of the
    text-recognition stage: neither the constructor of the OCR model nor the
    recognition. *)
Theorem C5_no_box_no_ocr :
  forall (w : World) (a : PlateLocal.Args) m im mc dv rs,
    no_boxes rs = true ->
    In (Predict m im mc dv (Ok rs)) (trace (PlateLocal.main w a)) ->
    stdout (PlateLocal.main w a)
    = [JObj [("plate", JNull); ("confidence", JFloat fzero)]] /\
    exit_code (PlateLocal.main w a) = 0 /\
    existsb ocr_event (trace (PlateLocal.main w a)) = false.
Proof.
  intros w a m im mc dv rs Hnb. unfold stdout, exit_code, outcome, trace.
  run_cases.
  all: intros H; in_trace H.
  all: injection H as E1 E2 E3 E4 E5; subst.
  all: first [congruence | repeat split].
Qed.

Lemma C5_no_box_no_ocr_witness :
  stdout (PlateLocal.main w_none (local_args "0"))
  = [JObj [("plate", JNull); ("confidence", JFloat fzero)]] /\
  exit_code (PlateLocal.main w_none (local_args "0")) = 0 /\
  existsb ocr_event (trace (PlateLocal.main w_none (local_args "0"))) = false.
Proof.
  apply (C5_no_box_no_ocr w_none (local_args "0")
           (mkYolo "models/plate_yolo.pt") car (q 35 100) "0" []).
  - reflexivity.
  - simpl. auto 10.
Defined.

(** ** C10: the reported box is the cropped box *)

(** C10.  In the reader script, an object printed with a [bbox] key comes
    from a run that cropped the decoded image once, by the four integers under
    [bbox], and called the recognition once, on that crop; the [plate] field
    is the text [ocr_plate] returns for that crop. *)
Theorem C10_bbox_is_cropped_region :
  forall (w : World) (a : PlateLocal.Args) (j : json) (b : bbox),
    get "bbox" j = Some (json_bbox b) ->
    In j (stdout (PlateLocal.main w a)) ->
    exists im cropped o text c,
      image_open w (PlateLocal.image a) = Ok im /\
      filter crop_event (trace (PlateLocal.main w a)) = [Crop im b (Ok cropped)] /\
      In (OcrCall o cropped (ocr_call w o cropped)) (trace (PlateLocal.main w a)) /\
      (forall o' im' r', In (OcrCall o' im' r') (trace (PlateLocal.main w a)) ->
                         im' = cropped) /\
      outcome (PlateLocal.ocr_plate w o cropped) = inl (text, c) /\
      get "plate" j = Some (of_option_string text).
Proof.
  intros w a j [[[x1 y1] x2] y2] Hget. unfold stdout, trace.
  run_cases.
  all: intros Hj; simpl in Hj; try contradiction Hj.
  all: destruct Hj as [<- | []]; simpl in Hget; try discriminate Hget.
  all: injection Hget as -> -> -> ->.
  all: match goal with
       | Ho : image_open _ _ = Ok ?im, Hc : crop _ _ _ = Ok ?cr,
         Hocr : ocr_call _ ?o _ = Ok _ |- _ =>
           exists im, cr, o; do 2 eexists;
           split; [reflexivity |];
           split; [reflexivity |];
           split; [rewrite Hocr; simpl; auto 15 |];
           split; [intros o' im' r' H; in_trace H; injection H; congruence |];
           split;
           [ unfold PlateLocal.ocr_plate, ocr_ocr, outcome; simpl_run;
             rewrite Hocr; simpl_run
           | ]
       end.
  all: match goal with
       | Hf : PlateLocal.falsy _ = _ |- _ = inl _ => rewrite Hf; simpl_run
       | _ => idtac
       end.
  all: match goal with
       | Hs : PlateLocal.scan _ _ = _ |- _ = inl _ => rewrite Hs
       | _ => idtac
       end.
  all: reflexivity.
Qed.

Lemma C10_bbox_is_cropped_region_witness :
  exists im cropped o text c,
    image_open w_two "car.jpg" = Ok im /\
    filter crop_event (trace (PlateLocal.main w_two (local_args "0")))
    = [Crop im (1, 1, 3, 2) (Ok cropped)] /\
    In (OcrCall o cropped (ocr_call w_two o cropped))
       (trace (PlateLocal.main w_two (local_args "0"))) /\
    (forall o' im' r',
        In (OcrCall o' im' r') (trace (PlateLocal.main w_two (local_args "0"))) ->
        im' = cropped) /\
    outcome (PlateLocal.ocr_plate w_two o cropped) = inl (text, c) /\
    get "plate" read_two = Some (of_option_string text).
Proof.
  apply (C10_bbox_is_cropped_region w_two (local_args "0") read_two (1, 1, 3, 2)).
  - reflexivity.
  - simpl. left. reflexivity.
Defined.

(** ** C7 and C9: the text that is kept *)

Section BestText.

Lemma scan_concat (lines : list (list ocr_entry)) :
  forall best,
    PlateLocal.scan lines best = fold_left PlateLocal.keep_better (List.concat lines) best.
Proof.
  unfold PlateLocal.scan.
  induction lines as [| l ls IH]; intros best; simpl.
  - reflexivity.
  - rewrite fold_left_app. apply IH.
Qed.

Lemma fgt_not_nan (a b : pyfloat) : fgt a b = true -> is_nan a = false.
Proof. destruct a, b; simpl; intros H; try reflexivity; discriminate. Qed.

(** [b < a] and [a <= c] leave [b <= c]. *)
Lemma fgt_lt_le (a b c : pyfloat) :
  fgt a b = true -> fgt a c = false -> is_nan c = false -> fgt b c = false.
Proof.
  destruct a as [x | | |], b as [y | | |], c as [z | | |]; simpl;
    intros H1 H2 Hc; try reflexivity; try discriminate.
  apply negb_true_iff in H1. apply negb_false_iff in H2. apply negb_false_iff.
  apply Qle_bool_iff. apply Qle_bool_iff in H2.
  destruct (Qlt_le_dec x y) as [Hlt | Hle].
  - apply Qlt_le_weak in Hlt. apply Qle_bool_iff in Hlt. congruence.
  - eapply Qle_trans; eassumption.
Qed.

(** The loop invariant: the running best is a number that no entry seen so
    far exceeds, and it is the start value or the confidence of the entry whose
    text is kept. *)
Lemma keep_better_fold (es : list ocr_entry) :
  forall (bt : option string) (bc : pyfloat),
    is_nan bc = false ->
    exists t c,
      fold_left PlateLocal.keep_better es (bt, bc) = (t, c) /\
      is_nan c = false /\
      fgt bc c = false /\
      (forall e, In e es -> fgt (snd (snd e)) c = false) /\
      ((t, c) = (bt, bc) \/
       exists reg text, In (reg, (text, c)) es /\ t = Some text /\ fgt c bc = true).
Proof.
  induction es as [| [reg [text x]] es IH]; intros bt bc Hbc.
  - exists bt, bc. simpl. split; [reflexivity |]. split; [exact Hbc |].
    split; [apply fgt_fle, fle_refl, Hbc |]. split; [intros e [] | left; reflexivity].
  - simpl. destruct (fgt x bc) eqn:Hgt.
    + pose proof (fgt_not_nan _ _ Hgt) as Hx.
      destruct (IH (Some text) x Hx) as (t & c & Hf & Hc & Hxc & Hall & Hsrc).
      exists t, c. split; [exact Hf |]. split; [exact Hc |].
      split; [eapply fgt_lt_le; eassumption |].
      split.
      * intros e [<- | He]; [exact Hxc | apply Hall, He].
      * right. destruct Hsrc as [E | (reg' & text' & Hin & Ht & Hcx)].
        -- injection E as -> ->. exists reg, text.
           split; [left; reflexivity |]. split; [reflexivity | exact Hgt].
        -- exists reg', text'. split; [right; exact Hin |]. split; [exact Ht |].
           destruct (fgt c bc) eqn:Hcb; [reflexivity |].
           pose proof (fgt_lt_le x bc c Hgt Hxc Hc) as Hbcc.
           (* bc < x < c contradicts c <= bc *)
           exfalso.
           assert (Hxbc : fgt x bc = false).
           { eapply fgt_trans_fle; [exact Hxc | exact Hcb | exact Hc]. }
           congruence.
    + destruct (IH bt bc Hbc) as (t & c & Hf & Hc & Hbcc & Hall & Hsrc).
      exists t, c. split; [exact Hf |]. split; [exact Hc |].
      split; [exact Hbcc |]. split.
      * intros e [<- | He]; [| apply Hall, He]. simpl.
        eapply fgt_trans_fle; eassumption.
      * destruct Hsrc as [E | (reg' & text' & Hin & Ht & Hcx)].
        -- left. exact E.
        -- right. exists reg', text'. split; [right; exact Hin |].
           split; assumption.
Qed.

(** Entries that do not exceed the running best leave it as it is. *)
Lemma keep_better_none (es : list ocr_entry) (bt : option string) (bc : pyfloat) :
  (forall e, In e es -> fgt (snd (snd e)) bc = false) ->
  fold_left PlateLocal.keep_better es (bt, bc) = (bt, bc).
Proof.
  induction es as [| [reg [text x]] es IH]; intros H; simpl.
  - reflexivity.
  - pose proof (H (reg, (text, x)) (or_introl eq_refl)) as Hx. simpl in Hx.
    rewrite Hx. apply IH.
    intros e He. apply H. right. exact He.
Qed.

End BestText.

(** C7, as amended.  When the recognition returns [None] or an empty list,
    [ocr_plate] returns no text and the confidence 0.0.  When it returns a
    non-empty list in which some entry has a confidence greater than 0.0,
    [ocr_plate] returns the text and the confidence of one of the entries, and
    no entry of any line has a greater confidence. *)
Theorem C7_best_text :
  forall (w : World) (o : OcrEngine) (im : Image) (r : ocr_result),
    ocr_call w o im = Ok r ->
    (PlateLocal.falsy r = true ->
     outcome (PlateLocal.ocr_plate w o im) = inl (None, fzero)) /\
    (PlateLocal.falsy r = false ->
     (exists e, In e (List.concat (PlateLocal.lines_of r)) /\
                fgt (snd (snd e)) fzero = true) ->
     exists reg text c,
       outcome (PlateLocal.ocr_plate w o im) = inl (Some text, c) /\
       In (reg, (text, c)) (List.concat (PlateLocal.lines_of r)) /\
       forall e, In e (List.concat (PlateLocal.lines_of r)) ->
                 fgt (snd (snd e)) c = false).
Proof.
  intros w o im r Hr.
  unfold PlateLocal.ocr_plate, ocr_ocr, outcome. simpl_run. rewrite Hr. simpl_run.
  split; intros Hf; rewrite Hf; simpl_run.
  - reflexivity.
  - intros (e & He & Hpos). rewrite scan_concat.
    destruct (keep_better_fold (List.concat (PlateLocal.lines_of r)) None fzero eq_refl)
      as (t & c & Hfold & Hc & _ & Hall & Hsrc).
    rewrite Hfold.
    destruct Hsrc as [E | (reg & text & Hin & Ht & _)].
    + injection E as -> ->. rewrite (Hall e He) in Hpos. discriminate.
    + subst t. exists reg, text, c. split; [reflexivity |]. split; assumption.
Qed.

Lemma C7_best_text_witness :
  exists reg text c,
    outcome (PlateLocal.ocr_plate w_two (mkOcr "japan" true) car) = inl (Some text, c) /\
    In (reg, (text, c)) (List.concat (PlateLocal.lines_of two_texts)) /\
    forall e, In e (List.concat (PlateLocal.lines_of two_texts)) ->
              fgt (snd (snd e)) c = false.
Proof.
  apply (C7_best_text w_two (mkOcr "japan" true) car two_texts eq_refl).
  - reflexivity.
  - exists ([], ("12-34", q 4 5)). split; [left; reflexivity | reflexivity].
Defined.

(** C7 as stated fails: for a non-empty result whose only entry has the
    confidence 0.0, [ocr_plate] returns no text, not the text of that entry. *)
Lemma C7_zero_confidence_text_dropped :
  ocr_call w_zero (mkOcr "japan" true) car = Ok zero_text /\
  PlateLocal.falsy zero_text = false /\
  List.concat (PlateLocal.lines_of zero_text) = [([], ("A", q 0 1))] /\
  outcome (PlateLocal.ocr_plate w_zero (mkOcr "japan" true) car) = inl (None, fzero).
Proof. repeat split. Qed.

(** C9.  When every entry of the list the recognition returns, a non-empty
    list in particular, has a confidence less than or equal to 0.0,
    [ocr_plate] returns no text and the confidence 0.0, as it does for an
    empty list. *)
Theorem C9_nonpositive_confidences :
  forall (w : World) (o : OcrEngine) (im : Image) (lines : list (list ocr_entry)),
    ocr_call w o im = Ok (Some lines) ->
    (forall e, In e (List.concat lines) -> fle (snd (snd e)) fzero = true) ->
    PlateLocal.ocr_plate w o im
    = ([OcrCall o im (Ok (Some lines))], inl (None, fzero)).
Proof.
  intros w o im lines Hr Hall.
  unfold PlateLocal.ocr_plate, ocr_ocr, call, bind, ret. rewrite Hr.
  cbv beta iota.
  destruct (PlateLocal.falsy (Some lines)); cbv beta iota; [reflexivity |].
  unfold PlateLocal.lines_of.
  rewrite scan_concat, keep_better_none; [reflexivity |].
  intros e He. apply fgt_fle, Hall, He.
Qed.

Lemma C9_nonpositive_confidences_witness :
  zero_text = Some [[([], ("A", q 0 1))]] /\
  PlateLocal.ocr_plate w_zero (mkOcr "japan" true) car
  = ([OcrCall (mkOcr "japan" true) car (Ok zero_text)], inl (None, fzero)).
Proof.
  split; [reflexivity |].
  apply (C9_nonpositive_confidences w_zero (mkOcr "japan" true) car
           [[([], ("A", q 0 1))]] eq_refl).
  intros e [<- | []]. reflexivity.
Defined.

(** ** C8: the device ["auto"] *)

(** C8, as amended.  With [--device auto] a run of either script asks the
    capability check at most once, and not after a model is loaded, and every
    call of the detection model is given the resolved device.  In the
    detector script the device is ["0"] when torch imports and the check
    answers that an accelerator is there, and ["cpu"] otherwise, a failure of
    the import or of the check included: whatever the check does, a run whose
    image decodes goes on to load the model.  In the reader script, where
    torch is imported under the guard of the first lines, the device is ["0"]
    when the check answers that an accelerator is there and ["cpu"] when it
    answers that none is. *)
Theorem C8_device_auto :
  forall (w : World) (a : PlateDetect.Args) (a' : PlateLocal.Args),
    PlateDetect.device a = "auto" ->
    PlateLocal.device a' = "auto" ->
    ((List.length (filter cuda_event (trace (PlateDetect.main w a))) <= 1)%nat /\
     existsb cuda_event (after_first_model (trace (PlateDetect.main w a))) = false /\
     (forall m im mc dv r,
         In (Predict m im mc dv r) (trace (PlateDetect.main w a)) ->
         dv = match import_torch w, cuda_is_available w with
              | Ok _, Ok true => "0"
              | _, _ => "cpu"
              end) /\
     (forall im,
         path_exists w (PlateDetect.image a) = true ->
         image_open w (PlateDetect.image a) = Ok im ->
         In (YoloNew (PlateDetect.yolo_model a) (yolo_new w (PlateDetect.yolo_model a)))
            (trace (PlateDetect.main w a)))) /\
    ((List.length (filter cuda_event (trace (PlateLocal.main w a'))) <= 1)%nat /\
     existsb cuda_event (after_first_model (trace (PlateLocal.main w a'))) = false /\
     (forall m im mc dv r,
         In (Predict m im mc dv r) (trace (PlateLocal.main w a')) ->
         exists avail,
           cuda_is_available w = Ok avail /\
           dv = if avail : bool then "0" else "cpu")).
Proof.
  intros w a a' Hd Hd'. unfold trace. split; [split; [| split; [| split]] | split; [| split]].
  - unfold_run. rewrite Hd. simpl_run. repeat next_case. all: simpl; lia.
  - unfold_run. rewrite Hd. simpl_run. repeat next_case. all: reflexivity.
  - intros m im mc dv r. unfold_run. rewrite Hd. simpl_run. repeat next_case.
    all: intros H; in_trace H.
    all: injection H as E1 E2 E3 E4 E5; subst; reflexivity.
  - intros im Hex Him. unfold_run. rewrite Hd, Hex. simpl_run. rewrite Him.
    simpl_run. repeat next_case.
    all: simpl; auto 12.
  - unfold_run. rewrite Hd'. simpl_run. repeat next_case. all: simpl; lia.
  - unfold_run. rewrite Hd'. simpl_run. repeat next_case. all: reflexivity.
  - intros m im mc dv r. unfold_run. rewrite Hd'. simpl_run. repeat next_case.
    all: intros H; in_trace H.
    all: injection H as E1 E2 E3 E4 E5; subst; eexists; split; reflexivity.
Qed.

Lemma C8_device_auto_witness :
  (forall m im mc dv r,
      In (Predict m im mc dv r) (trace (PlateDetect.main w_no_cuda_check (detect_args "auto" None))) ->
      dv = "cpu") /\
  (forall m im mc dv r,
      In (Predict m im mc dv r) (trace (PlateLocal.main w_two (local_args "auto"))) ->
      exists avail, cuda_is_available w_two = Ok avail /\
                    dv = if avail : bool then "0" else "cpu").
Proof.
  split.
  - apply (C8_device_auto w_no_cuda_check (detect_args "auto" None) (local_args "auto")
             eq_refl eq_refl).
  - apply (C8_device_auto w_two (detect_args "auto" None) (local_args "auto")
             eq_refl eq_refl).
Defined.

(** C8 as stated fails for the reader script: a capability check that raises
    is not swallowed there.  The run ends with that exception before any model
    is loaded, and prints nothing. *)
Lemma C8_reader_check_failure_escapes :
  cuda_is_available w_no_cuda_check = Raise boom /\
  trace (PlateLocal.main w_no_cuda_check (local_args "auto"))
  = [Time 100%Q; Exists "car.jpg" true; ImageOpen "car.jpg" (Ok car);
     CudaIsAvailable (Raise boom)] /\
  traceback (PlateLocal.main w_no_cuda_check (local_args "auto")) = Some boom /\
  stdout (PlateLocal.main w_no_cuda_check (local_args "auto")) = [].
Proof. repeat split. Qed.

(** * Further properties of the scripts *)

(** ** The conversion of a coordinate *)

Section Coordinates.

Lemma int_max0_pos_inf (a : pyfloat) :
  is_pos_inf a = true -> int (max0 a) = Raise OverflowError.
Proof. destruct a; simpl; intros H; try discriminate. reflexivity. Qed.

Lemma int_max0_returns (a : pyfloat) :
  is_pos_inf a = false -> exists z, int (max0 a) = Ok z.
Proof.
  destruct a as [x | | |]; intros H; try discriminate.
  - unfold max0. destruct (fgt (FFin x) fzero); eexists; reflexivity.
  - exists 0. reflexivity.
  - exists 0. reflexivity.
Qed.

(** X1.  The list [[int(max(0, v)) for v in box]] raises exactly when one of
    the four coordinates is plus infinity, and the exception is then the
    [OverflowError] of [int]; a NaN or minus infinity does not make it
    raise. *)
Theorem clamp_raises_on_infinity :
  forall v : pyfloat * pyfloat * pyfloat * pyfloat,
    (existsb is_pos_inf (coords v) = true -> clamp v = Raise OverflowError) /\
    (existsb is_pos_inf (coords v) = false -> exists b, clamp v = Ok b).
Proof.
  intros [[[a b] c] d]. unfold coords, clamp. simpl. split.
  - intros H.
    destruct (is_pos_inf a) eqn:Ha.
    { rewrite (int_max0_pos_inf a Ha). reflexivity. }
    destruct (int_max0_returns a Ha) as (x1 & ->).
    destruct (is_pos_inf b) eqn:Hb.
    { rewrite (int_max0_pos_inf b Hb). reflexivity. }
    destruct (int_max0_returns b Hb) as (y1 & ->).
    destruct (is_pos_inf c) eqn:Hc.
    { rewrite (int_max0_pos_inf c Hc). reflexivity. }
    destruct (int_max0_returns c Hc) as (x2 & ->).
    destruct (is_pos_inf d) eqn:Hd.
    { rewrite (int_max0_pos_inf d Hd). reflexivity. }
    simpl in H. discriminate.
  - intros H. repeat (apply orb_false_iff in H; destruct H as [? H]).
    destruct (int_max0_returns a) as (x1 & ->); [assumption |].
    destruct (int_max0_returns b) as (y1 & ->); [assumption |].
    destruct (int_max0_returns c) as (x2 & ->); [assumption |].
    destruct (int_max0_returns d) as (y2 & ->); [assumption |].
    eexists. reflexivity.
Qed.

Lemma Qtrunc_floor (x : Q) : (0 <= Qnum x) -> Qtrunc x = Qfloor x.
Proof.
  intros H. destruct x as [n d]. unfold Qtrunc, Qfloor. simpl in *.
  apply Z.quot_div_nonneg; lia.
Qed.

Lemma int_max0_rounded (v : pyfloat) (z : Z) :
  int (max0 v) = Ok z -> rounded v z.
Proof.
  unfold max0, rounded. destruct (fgt v fzero) eqn:Hgt; simpl.
  - destruct v as [x | | |]; simpl in *; try discriminate.
    intros H. injection H as <-. right. exists x.
    apply negb_true_iff in Hgt.
    assert (Hpos : (0 < x)%Q).
    { destruct (Qlt_le_dec 0 x) as [Hlt | Hle]; [exact Hlt |].
      apply Qle_bool_iff in Hle. congruence. }
    split; [reflexivity |]. split; [exact Hpos |].
    rewrite Qtrunc_floor.
    + split; [apply Qfloor_le | apply Qlt_floor].
    + destruct x as [n d]. unfold Qlt in Hpos. simpl in *. lia.
  - intros H. injection H as <-. left. split; reflexivity.
Qed.

(** X2.  A box that converts gives, coordinate by coordinate, zero for a float
    that is not greater than zero (a negative one, a zero, a NaN, minus
    infinity), and otherwise the integer part of the float: the greatest
    integer below or equal to it, so a box never grows by the conversion. *)
Theorem clamp_rounds_down :
  forall (v : pyfloat * pyfloat * pyfloat * pyfloat) (b : bbox),
    clamp v = Ok b ->
    let '(v1, v2, v3, v4) := v in
    let '(x1, y1, x2, y2) := b in
    rounded v1 x1 /\ rounded v2 y1 /\ rounded v3 x2 /\ rounded v4 y2.
Proof.
  intros v b H. pose proof (clamp_inv v b H) as Hinv.
  destruct v as [[[v1 v2] v3] v4], b as [[[x1 y1] x2] y2].
  destruct Hinv as (H1 & H2 & H3 & H4).
  repeat split; apply int_max0_rounded; assumption.
Qed.

Lemma clamp_rounds_down_witness :
  rounded (q 3 2) 1 /\ rounded (q (-3) 2) 0 /\ rounded (q 7 2) 3 /\ rounded FNaN 0.
Proof.
  apply (clamp_rounds_down (q 3 2, q (-3) 2, q 7 2, FNaN) (1, 0, 3, 0)).
  reflexivity.
Defined.

End Coordinates.

(** ** The text the reader keeps *)

Section KeptText.

Lemma fgt_above (x bc c : pyfloat) :
  fgt x bc = false -> is_nan bc = false -> fgt c bc = true ->
  fgt c x = true \/ is_nan x = true.
Proof.
  destruct x as [x | | |], bc as [y | | |], c as [z | | |]; simpl;
    intros H1 H2 H3; try discriminate; auto.
  left. apply negb_false_iff in H1. apply negb_true_iff in H3.
  apply negb_true_iff.
  destruct (Qle_bool z x) eqn:E; [| reflexivity].
  apply Qle_bool_iff in E, H1.
  assert (Hzy : (z <= y)%Q) by (eapply Qle_trans; eassumption).
  apply Qle_bool_iff in Hzy. congruence.
Qed.

Lemma fgt_chain (x bc c : pyfloat) :
  fgt x bc = true -> fgt c x = true -> fgt c bc = true.
Proof.
  destruct x as [x | | |], bc as [y | | |], c as [z | | |]; simpl;
    intros H1 H2; try discriminate; auto.
  apply negb_true_iff in H1, H2. apply negb_true_iff.
  destruct (Qle_bool z y) eqn:E; [| reflexivity].
  apply Qle_bool_iff in E.
  destruct (Qlt_le_dec y x) as [Hlt | Hle].
  - assert (Hzx : (z <= x)%Q).
    { eapply Qle_trans; [exact E | apply Qlt_le_weak, Hlt]. }
    apply Qle_bool_iff in Hzx. congruence.
  - apply Qle_bool_iff in Hle. congruence.
Qed.

(** Where the kept entry sits: nothing before it reaches its confidence,
    nothing after it exceeds it. *)
Lemma keep_better_first (es : list ocr_entry) :
  forall (bt : option string) (bc : pyfloat) (t : option string) (c : pyfloat),
    is_nan bc = false ->
    fold_left PlateLocal.keep_better es (bt, bc) = (t, c) ->
    (t = bt /\ c = bc /\ forall e, In e es -> fgt (entry_conf e) bc = false) \/
    (exists pre reg text post,
        es = (pre ++ (reg, (text, c)) :: post)%list /\
        t = Some text /\
        fgt c bc = true /\
        (forall e, In e pre -> fgt c (entry_conf e) = true \/ is_nan (entry_conf e) = true) /\
        (forall e, In e post -> fgt (entry_conf e) c = false)).
Proof.
  induction es as [| [reg [text x]] es IH]; intros bt bc t c Hbc Hf.
  - simpl in Hf. injection Hf as <- <-. left. repeat split. intros e [].
  - simpl in Hf. destruct (fgt x bc) eqn:Hgt.
    + pose proof (fgt_not_nan _ _ Hgt) as Hx.
      destruct (IH _ _ _ _ Hx Hf)
        as [(-> & -> & Hall) | (pre & reg' & text' & post & -> & -> & Hcx & Hpre & Hpost)].
      * right. exists [], reg, text, es. repeat split; try assumption.
        intros e [].
      * right. exists ((reg, (text, x)) :: pre), reg', text', post.
        split; [reflexivity |]. split; [reflexivity |].
        split; [eapply fgt_chain; eassumption |]. split; [| exact Hpost].
        intros e [<- | He]; [left; exact Hcx | apply Hpre, He].
    + destruct (IH _ _ _ _ Hbc Hf)
        as [(-> & -> & Hall) | (pre & reg' & text' & post & -> & -> & Hcb & Hpre & Hpost)].
      * left. repeat split. intros e [<- | He]; [exact Hgt | apply Hall, He].
      * right. exists ((reg, (text, x)) :: pre), reg', text', post.
        split; [reflexivity |]. split; [reflexivity |].
        split; [exact Hcb |]. split; [| exact Hpost].
        intros e [<- | He]; [| apply Hpre, He].
        unfold entry_conf. simpl. eapply fgt_above; eassumption.
Qed.

(** X3.  When [ocr_plate] returns a text, it is the text of the first entry,
    in the order the lines and their entries are scanned, that has the
    greatest confidence: every entry before it has a smaller confidence (or a
    NaN), no entry after it has a greater one, and that confidence, which is
    returned with the text, is greater than 0.0. *)
Theorem ocr_plate_first_best :
  forall (w : World) (o : OcrEngine) (im : Image) (r : ocr_result)
         (text : string) (c : pyfloat),
    ocr_call w o im = Ok r ->
    outcome (PlateLocal.ocr_plate w o im) = inl (Some text, c) ->
    fgt c fzero = true /\
    exists pre reg post,
      List.concat (PlateLocal.lines_of r) = (pre ++ (reg, (text, c)) :: post)%list /\
      (forall e, In e pre -> fgt c (entry_conf e) = true \/ is_nan (entry_conf e) = true) /\
      (forall e, In e post -> fgt (entry_conf e) c = false).
Proof.
  intros w o im r text c Hr.
  unfold PlateLocal.ocr_plate, ocr_ocr, outcome, call, bind, ret. rewrite Hr.
  cbv beta iota. destruct (PlateLocal.falsy r); cbv beta iota; simpl.
  - discriminate.
  - intros H. injection H as H. rewrite scan_concat in H.
    destruct (keep_better_first _ None fzero _ _ eq_refl H)
      as [(E & _) | (pre & reg & text' & post & Hes & Ht & Hc & Hpre & Hpost)].
    + discriminate.
    + injection Ht as <-. split; [exact Hc |].
      exists pre, reg, post. repeat split; assumption.
Qed.

Lemma ocr_plate_first_best_witness :
  fgt (q 19 20) fzero = true /\
  exists pre reg post,
    List.concat (PlateLocal.lines_of two_texts)
    = (pre ++ (reg, ("shinagawa", q 19 20)) :: post)%list /\
    (forall e, In e pre ->
               fgt (q 19 20) (entry_conf e) = true \/ is_nan (entry_conf e) = true) /\
    (forall e, In e post -> fgt (entry_conf e) (q 19 20) = false).
Proof.
  apply (ocr_plate_first_best w_two (mkOcr "japan" true) car two_texts).
  - reflexivity.
  - reflexivity.
Defined.

(** X4.  The reader never prints a text without a positive recognition
    confidence, nor a positive recognition confidence without a text: in a
    printed object with an [ocr_confidence], either [plate] is null and
    [ocr_confidence] is 0.0, or [plate] is a string and [ocr_confidence] is
    greater than 0.0. *)
Theorem reader_plate_and_ocr_confidence :
  forall (w : World) (a : PlateLocal.Args) (j : json) (c : pyfloat),
    In j (stdout (PlateLocal.main w a)) ->
    get "ocr_confidence" j = Some (JFloat c) ->
    (get "plate" j = Some JNull /\ c = fzero) \/
    (exists text, get "plate" j = Some (JStr text) /\ fgt c fzero = true).
Proof.
  intros w a j c. unfold stdout, trace.
  run_cases.
  all: intros Hj Hget; simpl in Hj; try contradiction Hj.
  all: destruct Hj as [<- | []]; simpl in Hget; try discriminate Hget.
  all: injection Hget as <-.
  all: try (left; split; reflexivity).
  all: match goal with
       | Hs : PlateLocal.scan _ _ = _ |- _ =>
           rewrite scan_concat in Hs;
           destruct (keep_better_first _ None fzero _ _ eq_refl Hs)
             as [(-> & -> & _) | (pre & reg & text & post & _ & -> & Hc & _)]
       end.
  all: first [ left; split; reflexivity
             | right; eexists; split; [reflexivity | assumption] ].
Qed.

Lemma reader_plate_and_ocr_confidence_witness :
  (get "plate" read_two = Some JNull /\ q 19 20 = fzero) \/
  (exists text, get "plate" read_two = Some (JStr text) /\ fgt (q 19 20) fzero = true).
Proof.
  apply (reader_plate_and_ocr_confidence w_two (local_args "0") read_two (q 19 20)).
  - simpl. left. reflexivity.
  - reflexivity.
Defined.

End KeptText.

(** ** The box that is kept, among equals *)

Section FirstBest.

Lemma argmax_scan_first (l : list pyfloat) :
  forall (mp : pyfloat) (best i : nat),
    is_nan mp = false ->
    Forall (fun x => is_nan x = false) l ->
    (argmax_scan mp best i l = best /\ Forall (fun x => fle x mp = true) l) \/
    (exists pre c post,
        l = (pre ++ c :: post)%list /\
        argmax_scan mp best i l = (i + List.length pre)%nat /\
        fle c mp = false /\
        Forall (fun x => fle c x = false) pre /\
        Forall (fun x => fle x c = true) post).
Proof.
  induction l as [| x t IH]; intros mp best i Hmp Hl.
  - left. split; [reflexivity | constructor].
  - inversion Hl as [| ? ? Hx Ht]; subst. simpl. rewrite Hmp.
    destruct (fle x mp) eqn:Hle.
    + destruct (IH mp best (S i) Hmp Ht)
        as [(E & Hall) | (pre & c & post & -> & E & Hc & Hpre & Hpost)].
      * left. split; [exact E | constructor; assumption].
      * right. exists (x :: pre), c, post. split; [reflexivity |].
        split; [rewrite E; simpl; lia |]. split; [exact Hc |].
        split; [| exact Hpost]. constructor; [| exact Hpre].
        destruct (fle c x) eqn:Hcx; [| reflexivity].
        rewrite (fle_trans c x mp Hcx Hle) in Hc. discriminate.
    + pose proof (fle_total x mp Hx Hmp Hle) as Hmx.
      destruct (IH x i (S i) Hx Ht)
        as [(E & Hall) | (pre & c & post & -> & E & Hc & Hpre & Hpost)].
      * right. exists [], x, t. split; [reflexivity |].
        split; [rewrite E; simpl; lia |]. split; [exact Hle |].
        split; [constructor | exact Hall].
      * right. exists (x :: pre), c, post. split; [reflexivity |].
        split; [rewrite E; simpl; lia |]. split.
        -- destruct (fle c mp) eqn:Hcm; [| reflexivity].
           rewrite (fle_trans c mp x Hcm Hmx) in Hc. discriminate.
        -- split; [| exact Hpost]. constructor; assumption.
Qed.

(** X5.  Among boxes whose confidences are numbers, the box both scripts keep,
    [boxes[argmax(conf)]], is the first of the greatest confidence: every box
    before it in the order of the model has a strictly smaller confidence and
    no box after it has a greater one. *)
Theorem selected_box_is_first_best :
  forall (bs : list Box) (i : nat) (box : Box),
    Forall (fun b => is_nan (conf b) = false) bs ->
    argmax (map conf bs) = Ok i ->
    box_at bs i = Ok box ->
    exists pre post,
      bs = (pre ++ box :: post)%list /\
      List.length pre = i /\
      Forall (fun b => fle (conf box) (conf b) = false) pre /\
      Forall (fun b => fle (conf b) (conf box) = true) post.
Proof.
  intros bs i box Hnan Ha Hbox.
  destruct bs as [| b0 bs']; [discriminate |].
  inversion Hnan as [| ? ? Hb0 Hrest]; subst.
  simpl in Ha. injection Ha as Ha.
  destruct (argmax_scan_first (map conf bs') (conf b0) 0%nat 1%nat Hb0)
    as [(E & Hall) | (pre & c & post & Hl & E & Hc & Hpre & Hpost)].
  { apply Forall_map. exact Hrest. }
  - rewrite E in Ha. subst i. unfold box_at in Hbox. simpl in Hbox.
    injection Hbox as <-. exists [], bs'. split; [reflexivity |].
    split; [reflexivity |]. split; [constructor |].
    apply Forall_map in Hall. exact Hall.
  - rewrite E in Ha. subst i.
    apply map_eq_app in Hl. destruct Hl as (pre' & rest & -> & <- & Hrest').
    apply map_eq_cons in Hrest'. destruct Hrest' as (b & post' & -> & <- & <-).
    unfold box_at in Hbox. simpl in Hbox. rewrite length_map in Hbox.
    rewrite nth_error_app2 in Hbox by lia.
    replace (List.length pre' - List.length pre')%nat with 0%nat in Hbox by lia.
    simpl in Hbox. injection Hbox as <-.
    exists (b0 :: pre'), post'. split; [reflexivity |].
    split; [simpl; rewrite length_map; reflexivity |].
    apply Forall_map in Hpre, Hpost. split; [| exact Hpost].
    constructor; [exact Hc | exact Hpre].
Qed.

Lemma selected_box_is_first_best_witness :
  exists pre post,
    tied_boxes = (pre ++ mkBox (q 1 1, q 1 1, q 2 1, q 2 1) (q 9 10) :: post)%list /\
    List.length pre = 1%nat /\
    Forall (fun b => fle (q 9 10) (conf b) = false) pre /\
    Forall (fun b => fle (conf b) (q 9 10) = true) post.
Proof.
  apply (selected_box_is_first_best tied_boxes 1
           (mkBox (q 1 1, q 1 1, q 2 1, q 2 1) (q 9 10))).
  - repeat constructor.
  - reflexivity.
  - reflexivity.
Defined.

End FirstBest.

(** ** The crop the detector writes *)

(** X6.  When [--output-crop] names a path and the detector prints a
    detection, the printed object carries that path under [crop_path], and
    the run cut the decoded image by the four integers it reports under
    [bbox] and saved that crop to the path. *)
Theorem detector_saves_reported_crop :
  forall (w : World) (a : PlateDetect.Args) (p : string) (j : json),
    PlateDetect.output_crop a = Some p ->
    String.eqb p "" = false ->
    In j (stdout (PlateDetect.main w a)) ->
    get "detected" j = Some (JBool true) ->
    exists im b cropped,
      get "crop_path" j = Some (JStr p) /\
      get "bbox" j = Some (json_bbox b) /\
      image_open w (PlateDetect.image a) = Ok im /\
      In (Crop im b (Ok cropped)) (trace (PlateDetect.main w a)) /\
      In (Save cropped p (Ok tt)) (trace (PlateDetect.main w a)).
Proof.
  intros w a p j Hout Hp. unfold stdout, trace.
  run_cases.
  all: intros Hj Hd; simpl in Hj; try contradiction Hj.
  all: destruct Hj as [<- | []]; simpl in Hd; try discriminate Hd.
  all: try congruence.
  all: injection Hout as <-.
  all: match goal with
       | Hc : crop _ ?im ?b = Ok ?cr |- _ => exists im, b, cr
       end.
  all: repeat split; simpl; auto 15.
Qed.

Lemma detector_saves_reported_crop_witness :
  exists im b cropped,
    get "crop_path" saved_two = Some (JStr "out.png") /\
    get "bbox" saved_two = Some (json_bbox b) /\
    image_open w_two "car.jpg" = Ok im /\
    In (Crop im b (Ok cropped))
       (trace (PlateDetect.main w_two (detect_args "0" (Some "out.png")))) /\
    In (Save cropped "out.png" (Ok tt))
       (trace (PlateDetect.main w_two (detect_args "0" (Some "out.png")))).
Proof.
  apply (detector_saves_reported_crop w_two (detect_args "0" (Some "out.png"))
           "out.png" saved_two).
  - reflexivity.
  - reflexivity.
  - simpl. left. reflexivity.
  - reflexivity.
Defined.

(** X7.  Without [--output-crop], or with an empty path, the detector neither
    crops the image nor writes a file, and no printed object has a
    [crop_path] key. *)
Theorem detector_no_crop_unless_asked :
  forall (w : World) (a : PlateDetect.Args),
    truthy (PlateDetect.output_crop a) = false ->
    existsb file_event (trace (PlateDetect.main w a)) = false /\
    forall j, In j (stdout (PlateDetect.main w a)) -> has_key "crop_path" j = false.
Proof.
  intros w a. unfold stdout, trace, truthy.
  run_cases.
  all: intros Ht; try discriminate Ht.
  all: split; [reflexivity |].
  all: intros j Hj; simpl in Hj; try contradiction Hj.
  all: destruct Hj as [<- | []]; reflexivity.
Qed.

Lemma detector_no_crop_unless_asked_witness :
  existsb file_event (trace (PlateDetect.main w_two (detect_args "0" (Some "")))) = false /\
  forall j, In j (stdout (PlateDetect.main w_two (detect_args "0" (Some "")))) ->
            has_key "crop_path" j = false.
Proof.
  apply (detector_no_crop_unless_asked w_two (detect_args "0" (Some ""))).
  reflexivity.
Defined.

(** X8.  A run of the detector that reports [detected: false], be it for a
    missing image, a model that did not load or an image without a plate,
    has cropped nothing and written no file, whatever [--output-crop] says. *)
Theorem detector_writes_nothing_when_not_detected :
  forall (w : World) (a : PlateDetect.Args) (j : json),
    In j (stdout (PlateDetect.main w a)) ->
    get "detected" j = Some (JBool false) ->
    existsb file_event (trace (PlateDetect.main w a)) = false.
Proof.
  intros w a j. unfold stdout, trace.
  run_cases.
  all: intros Hj Hd; simpl in Hj; try contradiction Hj.
  all: destruct Hj as [<- | []]; simpl in Hd; try discriminate Hd.
  all: reflexivity.
Qed.

Lemma detector_writes_nothing_when_not_detected_witness :
  existsb file_event
    (trace (PlateDetect.main w_none (detect_args "0" (Some "out.png")))) = false.
Proof.
  apply (detector_writes_nothing_when_not_detected w_none
           (detect_args "0" (Some "out.png")) not_detected).
  - simpl. left. reflexivity.
  - reflexivity.
Defined.

(** ** Failures the scripts report *)

(** X9.  When the constructor of the detection model raises an [Exception],
    [main] of either script prints one object whose [error] is
    ["yolo_load_error: "] followed by the text of the exception, exits with
    status 3, and never runs an inference (nor, in the reader, the
    recognition). *)
Theorem model_load_failure :
  forall (w : World) (a : PlateDetect.Args) (a' : PlateLocal.Args) (e : PyExn),
    exn_is_Exception e = true ->
    (In (YoloNew (PlateDetect.yolo_model a) (Raise e)) (trace (PlateDetect.main w a)) ->
     stdout (PlateDetect.main w a)
     = [JObj [("detected", JBool false);
              ("error", JStr ("yolo_load_error: " ++ exn_str e))]] /\
     exit_code (PlateDetect.main w a) = 3 /\
     existsb predict_event (trace (PlateDetect.main w a)) = false) /\
    (In (YoloNew (PlateLocal.yolo_model a') (Raise e)) (trace (PlateLocal.main w a')) ->
     stdout (PlateLocal.main w a')
     = [JObj [("plate", JNull);
              ("error", JStr ("yolo_load_error: " ++ exn_str e))]] /\
     exit_code (PlateLocal.main w a') = 3 /\
     existsb predict_event (trace (PlateLocal.main w a')) = false /\
     existsb ocr_event (trace (PlateLocal.main w a')) = false).
Proof.
  intros w a a' e He. unfold stdout, exit_code, outcome, trace. split.
  - run_cases.
    all: intros H; in_trace H.
    all: injection H as E; subst.
    all: first [congruence | repeat split].
  - run_cases.
    all: intros H; in_trace H.
    all: injection H as E; subst.
    all: first [congruence | repeat split].
Qed.

Lemma model_load_failure_witness :
  stdout (PlateDetect.main w_no_model (detect_args "0" None))
  = [JObj [("detected", JBool false);
           ("error", JStr "yolo_load_error: no such file")]] /\
  exit_code (PlateDetect.main w_no_model (detect_args "0" None)) = 3 /\
  existsb predict_event (trace (PlateDetect.main w_no_model (detect_args "0" None))) = false.
Proof.
  apply (model_load_failure w_no_model (detect_args "0" None) (local_args "0")
           (mkExn true "no such file") eq_refl).
  simpl. auto 10.
Defined.

(** X10.  A guarded import that raises an [Exception] ends the script before
    [main] starts: the run is the imports up to the failing one and the print
    of an object whose [error] is ["import_error: "] followed by the text of
    the exception, and the exit status is 1.  The reader imports ultralytics,
    paddleocr and torch in this order, so it needs torch whatever the
    device. *)
Theorem import_failure :
  forall (w : World) (a : PlateDetect.Args) (a' : PlateLocal.Args) (e : PyExn),
    exn_is_Exception e = true ->
    (import_ultralytics w = Raise e ->
     trace (PlateDetect.script w a)
     = [Import "ultralytics" (Raise e);
        Print (JObj [("detected", JBool false);
                     ("error", JStr ("import_error: " ++ exn_str e))])] /\
     exit_code (PlateDetect.script w a) = 1) /\
    (import_ultralytics w = Raise e ->
     trace (PlateLocal.script w a')
     = [Import "ultralytics" (Raise e);
        Print (JObj [("plate", JNull);
                     ("error", JStr ("import_error: " ++ exn_str e))])] /\
     exit_code (PlateLocal.script w a') = 1) /\
    (import_ultralytics w = Ok tt -> import_paddleocr w = Raise e ->
     trace (PlateLocal.script w a')
     = [Import "ultralytics" (Ok tt); Import "paddleocr" (Raise e);
        Print (JObj [("plate", JNull);
                     ("error", JStr ("import_error: " ++ exn_str e))])] /\
     exit_code (PlateLocal.script w a') = 1) /\
    (import_ultralytics w = Ok tt -> import_paddleocr w = Ok tt ->
     import_torch w = Raise e ->
     trace (PlateLocal.script w a')
     = [Import "ultralytics" (Ok tt); Import "paddleocr" (Ok tt);
        Import "torch" (Raise e);
        Print (JObj [("plate", JNull);
                     ("error", JStr ("import_error: " ++ exn_str e))])] /\
     exit_code (PlateLocal.script w a') = 1).
Proof.
  intros w a a' e He.
  unfold PlateDetect.script, PlateLocal.script, exit_code, outcome, trace.
  repeat split.
  all: intros; simpl_run.
  all: repeat match goal with H : _ = _ |- _ => rewrite H end.
  all: simpl_run; rewrite ?He; reflexivity.
Qed.

Lemma import_failure_witness :
  trace (PlateLocal.script w_no_paddle (local_args "0"))
  = [Import "ultralytics" (Ok tt);
     Import "paddleocr" (Raise (mkExn true "No module named paddleocr"));
     Print (JObj [("plate", JNull);
                  ("error", JStr "import_error: No module named paddleocr")])] /\
  exit_code (PlateLocal.script w_no_paddle (local_args "0")) = 1.
Proof.
  apply (import_failure w_no_paddle (detect_args "0" None) (local_args "0")
           (mkExn true "No module named paddleocr") eq_refl); reflexivity.
Defined.

(** ** What the models are given *)

(** X11.  With a [--device] other than ["auto"], [main] of either script
    neither imports torch nor asks the capability check, and every inference
    is given the device as it was written on the command line. *)
Theorem explicit_device_is_passed_on :
  forall (w : World) (a : PlateDetect.Args) (a' : PlateLocal.Args),
    String.eqb (PlateDetect.device a) "auto" = false ->
    String.eqb (PlateLocal.device a') "auto" = false ->
    (existsb torch_event (trace (PlateDetect.main w a)) = false /\
     forall m im mc dv r,
       In (Predict m im mc dv r) (trace (PlateDetect.main w a)) ->
       dv = PlateDetect.device a) /\
    (existsb torch_event (trace (PlateLocal.main w a')) = false /\
     forall m im mc dv r,
       In (Predict m im mc dv r) (trace (PlateLocal.main w a')) ->
       dv = PlateLocal.device a').
Proof.
  intros w a a' Hd Hd'. unfold trace. repeat split.
  - unfold_run. rewrite Hd. simpl_run. repeat next_case. all: reflexivity.
  - intros m im mc dv r. unfold_run. rewrite Hd. simpl_run. repeat next_case.
    all: intros H; in_trace H.
    all: injection H as E1 E2 E3 E4 E5; subst; reflexivity.
  - unfold_run. rewrite Hd'. simpl_run. repeat next_case. all: reflexivity.
  - intros m im mc dv r. unfold_run. rewrite Hd'. simpl_run. repeat next_case.
    all: intros H; in_trace H.
    all: injection H as E1 E2 E3 E4 E5; subst; reflexivity.
Qed.

Lemma explicit_device_is_passed_on_witness :
  existsb torch_event (trace (PlateLocal.main w_two (local_args "cpu"))) = false /\
  forall m im mc dv r,
    In (Predict m im mc dv r) (trace (PlateLocal.main w_two (local_args "cpu"))) ->
    dv = "cpu".
Proof.
  apply (explicit_device_is_passed_on w_two (detect_args "cpu" None) (local_args "cpu")
           eq_refl eq_refl).
Defined.

(** X12.  Every inference of a run is on the image the run decoded from
    [--image], by the model it loaded from [--yolo-model], with the threshold
    [--min-conf]; and a run makes at most one inference. *)
Theorem one_inference_on_the_decoded_image :
  forall (w : World),
    (forall (a : PlateDetect.Args),
        (List.length (filter predict_event (trace (PlateDetect.main w a))) <= 1)%nat /\
        forall m im mc dv r,
          In (Predict m im mc dv r) (trace (PlateDetect.main w a)) ->
          image_open w (PlateDetect.image a) = Ok im /\
          yolo_new w (PlateDetect.yolo_model a) = Ok m /\
          mc = PlateDetect.min_conf a /\
          r = predict w m im mc dv) /\
    (forall (a : PlateLocal.Args),
        (List.length (filter predict_event (trace (PlateLocal.main w a))) <= 1)%nat /\
        forall m im mc dv r,
          In (Predict m im mc dv r) (trace (PlateLocal.main w a)) ->
          image_open w (PlateLocal.image a) = Ok im /\
          yolo_new w (PlateLocal.yolo_model a) = Ok m /\
          mc = PlateLocal.min_conf a /\
          r = predict w m im mc dv).
Proof.
  intros w. unfold trace. split; intros a; split.
  - run_cases. all: simpl; lia.
  - intros m im mc dv r. run_cases.
    all: intros H; in_trace H.
    all: injection H as E1 E2 E3 E4 E5; subst.
    all: repeat split; congruence.
  - run_cases. all: simpl; lia.
  - intros m im mc dv r. run_cases.
    all: intros H; in_trace H.
    all: injection H as E1 E2 E3 E4 E5; subst.
    all: repeat split; congruence.
Qed.

(** X13.  The reader builds the recognition model for the language of
    [--ocr-lang], and on the GPU exactly when the device given to the
    detection model of the same run is neither ["cpu"] nor ["-1"]; it builds
    it only after an inference that returned boxes. *)
Theorem reader_ocr_engine :
  forall (w : World) (a : PlateLocal.Args) (l : string) (g : bool)
         (r : res OcrEngine),
    In (PaddleOcrNew l g r) (trace (PlateLocal.main w a)) ->
    l = PlateLocal.ocr_lang a /\
    r = paddleocr_new w l g /\
    (exists m im mc dv rs,
        In (Predict m im mc dv (Ok rs)) (trace (PlateLocal.main w a)) /\
        no_boxes rs = false /\
        g = gpu_device dv).
Proof.
  intros w a l g r. unfold trace.
  run_cases.
  all: intros H; in_trace H.
  all: injection H as E1 E2 E3; subst.
  all: split; [reflexivity |].
  all: split; [congruence |].
  all: do 5 eexists; split; [simpl; auto 15 |]; split; [eassumption | reflexivity].
Qed.

Lemma reader_ocr_engine_witness :
  "japan" = PlateLocal.ocr_lang (local_args "auto") /\
  Ok (mkOcr "japan" false) = paddleocr_new w_none_free "japan" false /\
  (exists m im mc dv rs,
      In (Predict m im mc dv (Ok rs)) (trace (PlateLocal.main w_none_free (local_args "auto"))) /\
      no_boxes rs = false /\
      false = gpu_device dv).
Proof.
  apply (reader_ocr_engine w_none_free (local_args "auto") "japan" false
           (Ok (mkOcr "japan" false))).
  simpl. auto 15.
Defined.

(** ** The shape of what is printed *)

(** X14.  An object the detector script prints has one of four lists of keys,
    in this order: [detected, error]; [detected, confidence, elapsed_ms];
    [detected, confidence, bbox, elapsed_ms]; and the last with [crop_path]
    after it.  Its [detected] field is true exactly when it has a [bbox].  An
    object the reader script prints has one of three: [plate, error];
    [plate, confidence]; [plate, confidence, ocr_confidence, bbox,
    elapsed_ms]. *)
Theorem printed_keys :
  forall (w : World),
    (forall (a : PlateDetect.Args) (j : json),
        In j (stdout (PlateDetect.script w a)) ->
        In (keys j)
           [["detected"; "error"];
            ["detected"; "confidence"; "elapsed_ms"];
            ["detected"; "confidence"; "bbox"; "elapsed_ms"];
            ["detected"; "confidence"; "bbox"; "elapsed_ms"; "crop_path"]] /\
        get "detected" j = Some (JBool (has_key "bbox" j))) /\
    (forall (a : PlateLocal.Args) (j : json),
        In j (stdout (PlateLocal.script w a)) ->
        In (keys j)
           [["plate"; "error"];
            ["plate"; "confidence"];
            ["plate"; "confidence"; "ocr_confidence"; "bbox"; "elapsed_ms"]]).
Proof.
  intros w. unfold stdout, trace. split; intros a j.
  - run_cases.
    all: intros Hj; simpl in Hj; try contradiction Hj.
    all: destruct Hj as [<- | []]; split; [simpl; auto 6 | reflexivity].
  - run_cases.
    all: intros Hj; simpl in Hj; try contradiction Hj.
    all: destruct Hj as [<- | []]; simpl; auto 6.
Qed.

(** ** The two scripts on the same input *)

Section Agreement.

Lemma detector_detection (w : World) (a : PlateDetect.Args) (j : json) (b : bbox) :
  String.eqb (PlateDetect.device a) "auto" = false ->
  In j (stdout (PlateDetect.main w a)) ->
  get "bbox" j = Some (json_bbox b) ->
  exists im m rs i box,
    image_open w (PlateDetect.image a) = Ok im /\
    yolo_new w (PlateDetect.yolo_model a) = Ok m /\
    predict w m im (PlateDetect.min_conf a) (PlateDetect.device a) = Ok rs /\
    argmax (map conf (first_boxes rs)) = Ok i /\
    box_at (first_boxes rs) i = Ok box /\
    clamp (xyxy box) = Ok b /\
    get "confidence" j = Some (JFloat (conf box)).
Proof.
  intros Hd. destruct b as [[[x1 y1] x2] y2]. unfold stdout, trace.
  unfold_run. rewrite Hd. simpl_run. repeat next_case.
  all: intros Hj Hget; simpl in Hj; try contradiction Hj.
  all: destruct Hj as [<- | []]; simpl in Hget; try discriminate Hget.
  all: injection Hget as -> -> -> ->.
  all: do 5 eexists; repeat split; eassumption.
Qed.

Lemma reader_detection (w : World) (a : PlateLocal.Args) (j : json) (b : bbox) :
  String.eqb (PlateLocal.device a) "auto" = false ->
  In j (stdout (PlateLocal.main w a)) ->
  get "bbox" j = Some (json_bbox b) ->
  exists im m rs i box,
    image_open w (PlateLocal.image a) = Ok im /\
    yolo_new w (PlateLocal.yolo_model a) = Ok m /\
    predict w m im (PlateLocal.min_conf a) (PlateLocal.device a) = Ok rs /\
    argmax (map conf (first_boxes rs)) = Ok i /\
    box_at (first_boxes rs) i = Ok box /\
    clamp (xyxy box) = Ok b /\
    get "confidence" j = Some (JFloat (conf box)).
Proof.
  intros Hd. destruct b as [[[x1 y1] x2] y2]. unfold stdout, trace.
  unfold_run. rewrite Hd. simpl_run. repeat next_case.
  all: intros Hj Hget; simpl in Hj; try contradiction Hj.
  all: destruct Hj as [<- | []]; simpl in Hget; try discriminate Hget.
  all: injection Hget as -> -> -> ->.
  all: do 5 eexists; repeat split; eassumption.
Qed.

(** X15.  Given the same image, model file, threshold and device (other than
    ["auto"]) in the same world, the two scripts agree on the detection: when
    each prints a [bbox], the two boxes are equal and so are the two
    [confidence] fields. *)
Theorem scripts_agree_on_detection :
  forall (w : World) (a : PlateDetect.Args) (a' : PlateLocal.Args)
         (j j' : json) (b b' : bbox),
    PlateLocal.image a' = PlateDetect.image a ->
    PlateLocal.yolo_model a' = PlateDetect.yolo_model a ->
    PlateLocal.min_conf a' = PlateDetect.min_conf a ->
    PlateLocal.device a' = PlateDetect.device a ->
    String.eqb (PlateDetect.device a) "auto" = false ->
    In j (stdout (PlateDetect.main w a)) ->
    In j' (stdout (PlateLocal.main w a')) ->
    get "bbox" j = Some (json_bbox b) ->
    get "bbox" j' = Some (json_bbox b') ->
    b' = b /\ get "confidence" j' = get "confidence" j.
Proof.
  intros w a a' j j' b b' Hi Hy Hm Hdv Hd Hj Hj' Hb Hb'.
  destruct (detector_detection w a j b Hd Hj Hb)
    as (im & m & rs & i & box & Him & Hym & Hp & Ha & Hbox & Hc & Hconf).
  assert (Hd' : String.eqb (PlateLocal.device a') "auto" = false)
    by (rewrite Hdv; exact Hd).
  destruct (reader_detection w a' j' b' Hd' Hj' Hb')
    as (im' & m' & rs' & i' & box' & Him' & Hym' & Hp' & Ha' & Hbox' & Hc' & Hconf').
  rewrite Hi, Him in Him'. injection Him' as <-.
  rewrite Hy, Hym in Hym'. injection Hym' as <-.
  rewrite Hm, Hdv, Hp in Hp'. injection Hp' as <-.
  rewrite Ha in Ha'. injection Ha' as <-.
  rewrite Hbox in Hbox'. injection Hbox' as <-.
  rewrite Hc in Hc'. injection Hc' as <-.
  split; [reflexivity |]. rewrite Hconf, Hconf'. reflexivity.
Qed.

Lemma scripts_agree_on_detection_witness :
  (1, 1, 3, 2) = (1, 1, 3, 2) /\
  get "confidence" read_two = get "confidence" detected_two.
Proof.
  apply (scripts_agree_on_detection w_two (detect_args "0" None) (local_args "0")
           detected_two read_two (1, 1, 3, 2) (1, 1, 3, 2)).
  all: try reflexivity.
  - simpl. left. reflexivity.
  - simpl. left. reflexivity.
Defined.

End Agreement.

(** * The claims on the whole run *)

(** ** More steps of the case analysis *)

(** Hypotheses of the form [Ok x = Ok y] left by the case analysis. *)
Ltac same_values :=
  repeat match goal with
         | H : Ok _ = Ok _ |- _ => injection H as H; subst
         | H : Some _ = Some _ |- _ => injection H as H; subst
         | H : true = false |- _ => discriminate H
         | H : false = true |- _ => discriminate H
         | H : Raise _ = Ok _ |- _ => discriminate H
         | H : Ok _ = Raise _ |- _ => discriminate H
         | H : None = Some _ |- _ => discriminate H
         | H : Some _ = None |- _ => discriminate H
         end.

(** Two answers of one call are one answer. *)
Ltac same_calls :=
  repeat match goal with
         | H1 : ?t = Ok _, H2 : ?t = Ok _ |- _ =>
             first [ rewrite H1 in H2; injection H2 as ?; subst | clear H2 ]
         | H1 : ?t = Ok _, H2 : ?t = Raise _ |- _ =>
             rewrite H1 in H2; discriminate H2
         | H1 : ?t = Raise _, H2 : ?t = Raise _ |- _ =>
             first [ rewrite H1 in H2; injection H2 as ?; subst | clear H2 ]
         end.





(** ** C6: the detector when nothing is detected *)

Section Elapsed.



End Elapsed.




(** ** C2: the reported box *)

Lemma clamp_reported (t : list event) (j : json) m im mc dv rs i box b :
  In (Predict m im mc dv (Ok rs)) t ->
  argmax (map conf (first_boxes rs)) = Ok i ->
  box_at (first_boxes rs) i = Ok box ->
  get "confidence" j = Some (JFloat (conf box)) ->
  clamp (xyxy box) = Ok b ->
  reported_box t j b.
Proof.
  intros Hev Hi Hbox Hconf Hc. pose proof (clamp_inv _ _ Hc) as Hinv.
  pose proof (clamp_rounds_down _ _ Hc) as Hr.
  destruct (xyxy box) as [[[v1 v2] v3] v4] eqn:Ev, b as [[[x1 y1] x2] y2].
  destruct Hinv as (H1 & H2 & H3 & H4). unfold reported_box. split.
  - repeat split; eapply int_max0_nonneg; eassumption.
  - exists m, im, mc, dv, rs, i, box. rewrite Ev.
    split; [exact Hev |]. split; [exact Hi |]. split; [exact Hbox |].
    split; [exact Hconf |]. split; [exact Hc |]. split; [exact Hr |].
    intros Hw Hh (L1 & L2 & L3 & L4).
    repeat split; eapply int_max0_le; eassumption.
Qed.

(** C2, as amended.  The four coordinates under [bbox] in an object printed by
    either script are integers greater than or equal to zero.  They come from
    the box the script selected, the one whose confidence the object reports:
    each is the coordinate of that box as the detection model returned it,
    replaced by zero when it is not greater than zero and cut to its integer
    part otherwise.  Nothing clamps them from above: they lie within the
    pixel dimensions of the image whenever the coordinates the model returned
    do. *)
Theorem C2_bbox_nonnegative :
  forall (w : World) (a : PlateDetect.Args) (a' : PlateLocal.Args)
         (j : json) (b : bbox),
    get "bbox" j = Some (json_bbox b) ->
    (In j (stdout (PlateDetect.main w a)) ->
     reported_box (trace (PlateDetect.main w a)) j b) /\
    (In j (stdout (PlateLocal.main w a')) ->
     reported_box (trace (PlateLocal.main w a')) j b).
Proof.
  intros w a a' j [[[x1 y1] x2] y2] Hget. unfold stdout, trace. split.
  - run_cases.
    all: intros Hj; simpl in Hj; try contradiction Hj.
    all: destruct Hj as [<- | []]; simpl in Hget; try discriminate Hget.
    all: injection Hget as -> -> -> ->.
    all: eapply clamp_reported;
      [| eassumption | eassumption | reflexivity | eassumption].
    all: simpl; auto 12.
  - run_cases.
    all: intros Hj; simpl in Hj; try contradiction Hj.
    all: destruct Hj as [<- | []]; simpl in Hget; try discriminate Hget.
    all: injection Hget as -> -> -> ->.
    all: eapply clamp_reported;
      [| eassumption | eassumption | reflexivity | eassumption].
    all: simpl; auto 12.
Qed.

Lemma C2_bbox_nonnegative_witness :
  reported_box (trace (PlateDetect.main w_two (detect_args "0" None)))
    detected_two (1, 1, 3, 2) /\
  reported_box (trace (PlateLocal.main w_two (local_args "0")))
    read_two (1, 1, 3, 2).
Proof.
  split.
  - apply (C2_bbox_nonnegative w_two (detect_args "0" None) (local_args "0")
             detected_two (1, 1, 3, 2) eq_refl).
    simpl. left. reflexivity.
  - apply (C2_bbox_nonnegative w_two (detect_args "0" None) (local_args "0")
             read_two (1, 1, 3, 2) eq_refl).
    simpl. left. reflexivity.
Defined.

(** C2 as stated fails: on a 4 x 3 raster for which the model returns the box
    (0, 0, 50, 60), both scripts report [0, 0, 50, 60]. *)
Lemma C2_bbox_beyond_image :
  stdout (PlateDetect.main w_wide (detect_args "0" None))
  = [JObj [("detected", JBool true); ("confidence", JFloat (q 9 10));
           ("bbox", JList [JInt 0; JInt 0; JInt 50; JInt 60]);
           ("elapsed_ms", JInt 250)]] /\
  image_open w_wide "car.jpg" = Ok car /\
  width car < 50 /\ height car < 60 /\
  stdout (PlateLocal.main w_wide (local_args "0"))
  = [JObj [("plate", JStr "shinagawa"); ("confidence", JFloat (q 9 10));
           ("ocr_confidence", JFloat (q 19 20));
           ("bbox", JList [JInt 0; JInt 0; JInt 50; JInt 60]);
           ("elapsed_ms", JInt 250)]].
Proof. repeat split. Qed.


(** ** C3: the box that is kept *)

(** C3.  When the detection model returns a non-empty list of boxes whose
    confidences are numbers (none is NaN), the box at the index [argmax]
    gives has a confidence greater than or equal to every returned
    confidence, and it is the one both scripts keep.  [detect_plate] returns
    it with its confidence.  A run of the detector whose image exists and
    decodes, whose model loads and gives that answer, whose box converts
    and whose crop, if one is asked for, is cut and saved, prints one object
    with [detected] true, the confidence of that box and its clamp; a run of
    the reader whose crop and recognition succeed as well prints one object
    with that confidence and that clamp.  And whatever else happens in a run
    in which the model gave that answer, an object it prints reports that
    confidence. *)
Theorem C3_argmax_selected :
  forall (w : World) (rs : list Results),
    no_boxes rs = false ->
    Forall (fun b => is_nan (conf b) = false) (first_boxes rs) ->
    exists i box,
      argmax (map conf (first_boxes rs)) = Ok i /\
      box_at (first_boxes rs) i = Ok box /\
      In box (first_boxes rs) /\
      Forall (fun b => fle (conf b) (conf box) = true) (first_boxes rs) /\
      (forall (a : PlateDetect.Args) im m b,
          path_exists w (PlateDetect.image a) = true ->
          image_open w (PlateDetect.image a) = Ok im ->
          yolo_new w (PlateDetect.yolo_model a) = Ok m ->
          predict w m im (PlateDetect.min_conf a)
                  (detector_device w (PlateDetect.device a)) = Ok rs ->
          clamp (xyxy box) = Ok b ->
          (forall p, PlateDetect.output_crop a = Some p -> String.eqb p "" = false ->
                     exists cropped, crop w im b = Ok cropped /\
                                     save w cropped p = Ok tt) ->
          exists j,
            stdout (PlateDetect.main w a) = [j] /\
            get "detected" j = Some (JBool true) /\
            get "confidence" j = Some (JFloat (conf box)) /\
            get "bbox" j = Some (json_bbox b) /\
            exit_code (PlateDetect.main w a) = 0) /\
      (forall (a : PlateLocal.Args) im m dv b cropped o r,
          path_exists w (PlateLocal.image a) = true ->
          image_open w (PlateLocal.image a) = Ok im ->
          reader_device w (PlateLocal.device a) = Some dv ->
          yolo_new w (PlateLocal.yolo_model a) = Ok m ->
          predict w m im (PlateLocal.min_conf a) dv = Ok rs ->
          clamp (xyxy box) = Ok b ->
          crop w im b = Ok cropped ->
          paddleocr_new w (PlateLocal.ocr_lang a) (uses_gpu dv) = Ok o ->
          ocr_call w o cropped = Ok r ->
          exists j,
            stdout (PlateLocal.main w a) = [j] /\
            get "confidence" j = Some (JFloat (conf box)) /\
            get "bbox" j = Some (json_bbox b) /\
            exit_code (PlateLocal.main w a) = 0) /\
      (forall m im mc dv,
          predict w m im mc dv = Ok rs ->
          outcome (PlateLocal.detect_plate w m im mc dv)
          = inl (Some (xyxy box, conf box))) /\
      (forall (a : PlateDetect.Args) m im mc dv,
          In (Predict m im mc dv (Ok rs)) (trace (PlateDetect.main w a)) ->
          forall j, In j (stdout (PlateDetect.main w a)) ->
                    get "confidence" j = Some (JFloat (conf box))) /\
      (forall (a : PlateLocal.Args) m im mc dv,
          In (Predict m im mc dv (Ok rs)) (trace (PlateLocal.main w a)) ->
          forall j, In j (stdout (PlateLocal.main w a)) ->
                    get "confidence" j = Some (JFloat (conf box))).
Proof.
  intros w rs Hnb Hnan.
  destruct (best_box_spec (first_boxes rs)) as (i & box & Hi & Hbox & Hin & Hmax).
  { unfold no_boxes, first_boxes in *. destruct rs as [| [[[| b bs] |]] rs'];
      simpl in *; congruence. }
  { exact Hnan. }
  exists i, box. split; [exact Hi |]. split; [exact Hbox |].
  split; [exact Hin |]. split; [exact Hmax |].
  split; [| split; [| split; [| split]]].
  - intros a im m b Hex Him Hm Hp Hc Hcrop.
    unfold stdout, exit_code, outcome, trace. unfold detector_device in Hp.
    run_cases.
    all: same_values; try congruence.
    all: same_calls; try congruence.
    all: try match goal with
             | Ho : PlateDetect.output_crop _ = Some ?p,
               Hne : String.eqb ?p "" = false |- _ =>
                 destruct (Hcrop p eq_refl Hne) as (cr & Hcr & Hsv)
             end.
    all: same_calls; try congruence.
    all: eexists; repeat split.
  - intros a im m dv b cropped o r Hex Him Hdv Hm Hp Hc Hcr Ho Hr.
    unfold stdout, exit_code, outcome, trace.
    unfold reader_device in Hdv. unfold uses_gpu in Ho.
    run_cases.
    all: same_values; try congruence.
    all: simpl in Ho.
    all: same_calls; try congruence.
    all: eexists; repeat split.
  - intros m im mc dv Hp. unfold PlateLocal.detect_plate, model_predict, outcome.
    simpl_run. rewrite Hp. simpl_run. rewrite Hnb. simpl_run.
    rewrite Hi. simpl_run. rewrite Hbox. reflexivity.
  - intros a m im mc dv. unfold stdout, trace.
    run_cases.
    all: intros H; in_trace H.
    all: injection H as E1 E2 E3 E4 E5; subst.
    all: try congruence.
    all: same_answer argmax; same_answer box_at.
    all: intros j Hj; simpl in Hj;
      first [destruct Hj as [<- | []]; reflexivity | destruct Hj].
  - intros a m im mc dv. unfold stdout, trace.
    run_cases.
    all: intros H; in_trace H.
    all: injection H as E1 E2 E3 E4 E5; subst.
    all: try congruence.
    all: same_answer argmax; same_answer box_at.
    all: intros j Hj; simpl in Hj;
      first [destruct Hj as [<- | []]; reflexivity | destruct Hj].
Qed.

(** In the sample with two candidates both scripts print 0.9, the confidence
    of the second, and the clamp of its box. *)
Lemma C3_argmax_selected_witness :
  exists box : Box,
    Forall (fun b => fle (conf b) (conf box) = true) (first_boxes two_boxes) /\
    (exists j,
        stdout (PlateDetect.main w_two (detect_args "auto" (Some "out.png"))) = [j] /\
        get "detected" j = Some (JBool true) /\
        get "confidence" j = Some (JFloat (conf box)) /\
        get "bbox" j = Some (json_bbox (1, 1, 3, 2)) /\
        exit_code (PlateDetect.main w_two (detect_args "auto" (Some "out.png"))) = 0) /\
    (exists j,
        stdout (PlateLocal.main w_two (local_args "auto")) = [j] /\
        get "confidence" j = Some (JFloat (conf box)) /\
        get "bbox" j = Some (json_bbox (1, 1, 3, 2)) /\
        exit_code (PlateLocal.main w_two (local_args "auto")) = 0).
Proof.
  destruct (C3_argmax_selected w_two two_boxes eq_refl)
    as (i & box & Hi & Hbox & Hin & Hmax & Hdet & Hread & _).
  { repeat constructor. }
  injection Hi as <-. injection Hbox as <-.
  exists (mkBox (q 3 2, q 1 1, q 7 2, q 5 2) (q 9 10)).
  split; [exact Hmax |]. split.
  - apply (Hdet (detect_args "auto" (Some "out.png")) car
             (mkYolo "models/plate_yolo.pt") (1, 1, 3, 2));
      try reflexivity.
    intros p Hp _. injection Hp as <-.
    exists (mkImage 2 1 []). split; reflexivity.
  - apply (Hread (local_args "auto") car (mkYolo "models/plate_yolo.pt") "0"
             (1, 1, 3, 2) (mkImage 2 1 []) (mkOcr "japan" true) two_texts);
      reflexivity.
Defined.

(** ** C1: one JSON object per run *)

Section OneObject.









End OneObject.


